(** * Agentic Policy Copilot: a shallow embedding and its verified properties

    The development follows the repository file by file:
    - [Text]         the operations of Python's [str] that the code relies on;
    - [MemoryStore]  memory_store.py (profiles document, episode log);
    - [Tools]        tools.py (policy search, profile tools);
    - [Graph]        graph.py (the nodes and edges of the turn controller);
    - [App]          app.py (the command-line loop).

    Conventions.
    - A Python [str] is a [string] whose characters are the code points
      below 256; [lower], [strip] and [split] follow Python on them.
    - A function that can raise returns a [result]; a function that cannot
      returns its value.
    - The files and the log of the prompts sent to the chat model form an
      explicit [World] that every effectful function threads through.  The
      chat model is a function from the number of earlier calls and the
      prompt to the text of its reply: the properties are about the turns
      in which every call to the model returns.
    - What [main] prints is not part of the model. *)

From Stdlib Require Import Ascii String NArith ZArith Lia.
From stdpp Require Import base gmap strings list fin_maps option.

Set Warnings "-register-all".

(* ===================================================================== *)
(** * Python's [str] operations                                           *)
(* ===================================================================== *)

Module Text.

(** [str.isspace] on one code point below 256: TAB..CR, FS..US, space,
    NEL (0x85) and NBSP (0xA0). *)
Definition is_space (c : ascii) : bool :=
  let n := N_of_ascii c in
  ((9 <=? n) && (n <=? 13) || (28 <=? n) && (n <=? 32)
   || (n =? 133) || (n =? 160))%N.

(** [str.lower] on one code point below 256: A..Z and the Latin-1 capitals
    0xC0..0xDE (the multiplication sign 0xD7 apart) move up by 32. *)
Definition lower_char (c : ascii) : ascii :=
  let n := N_of_ascii c in
  if ((65 <=? n) && (n <=? 90)
      || (192 <=? n) && (n <=? 222) && negb (n =? 215))%N
  then ascii_of_N (n + 32) else c.

(** [s.lower()] *)
Fixpoint lower (s : string) : string :=
  match s with
  | EmptyString => EmptyString
  | String c r => String (lower_char c) (lower r)
  end.

(** [len(s)] *)
Fixpoint len (s : string) : nat :=
  match s with
  | EmptyString => 0
  | String _ r => S (len r)
  end.

(** [not s] *)
Definition is_empty (s : string) : bool :=
  match s with EmptyString => true | String _ _ => false end.

(** [s.startswith(p)] *)
Fixpoint startswith (p s : string) : bool :=
  match p, s with
  | EmptyString, _ => true
  | String a p', String b s' => Ascii.eqb a b && startswith p' s'
  | String _ _, EmptyString => false
  end.

(** [sub in s]: [sub] starts at some position of [s]. *)
Fixpoint contains (sub s : string) : bool :=
  startswith sub s
  || match s with
     | EmptyString => false
     | String _ r => contains sub r
     end.

(** [c in chars] for one character. *)
Fixpoint char_in (c : ascii) (chars : string) : bool :=
  match chars with
  | EmptyString => false
  | String d r => Ascii.eqb c d || char_in c r
  end.

(** [s.lstrip(..)], [s.rstrip(..)] and [s.strip(..)], the characters to drop
    given as a predicate. *)
Fixpoint lstrip_with (drop : ascii -> bool) (s : string) : string :=
  match s with
  | EmptyString => EmptyString
  | String c r => if drop c then lstrip_with drop r else s
  end.

Fixpoint rstrip_with (drop : ascii -> bool) (s : string) : string :=
  match s with
  | EmptyString => EmptyString
  | String c r =>
      let r' := rstrip_with drop r in
      if drop c && is_empty r' then EmptyString else String c r'
  end.

Definition strip_with (drop : ascii -> bool) (s : string) : string :=
  rstrip_with drop (lstrip_with drop s).

(** [s.strip()] *)
Definition strip (s : string) : string := strip_with is_space s.

(** [s.strip(chars)] *)
Definition strip_chars (chars s : string) : string :=
  strip_with (fun c => char_in c chars) s.

(** [s.rstrip(chars)] *)
Definition rstrip_chars (chars s : string) : string :=
  rstrip_with (fun c => char_in c chars) s.

(** Keeps the characters that satisfy [keep]; removing every occurrence of a
    single character [c] is [filter_chars (fun d => negb (d =? c))]. *)
Fixpoint filter_chars (keep : ascii -> bool) (s : string) : string :=
  match s with
  | EmptyString => EmptyString
  | String c r =>
      if keep c then String c (filter_chars keep r) else filter_chars keep r
  end.

(** [s.replace(".", empty)] with the empty string [empty]. *)
Definition remove_dots (s : string) : string :=
  filter_chars (fun c => negb (Ascii.eqb c ".")) s.

(** [s.split()].  [split_aux s] is the pair of the word that touches the
    start of [s] (empty when [s] is empty or starts with white space) and the
    words after it; [push] drops an empty word. *)
Definition push (w : string) (ws : list string) : list string :=
  if is_empty w then ws else w :: ws.

Fixpoint split_aux (s : string) : string * list string :=
  match s with
  | EmptyString => (EmptyString, [])
  | String c r =>
      let '(w, ws) := split_aux r in
      if is_space c then (EmptyString, push w ws) else (String c w, ws)
  end.

Definition split (s : string) : list string :=
  let '(w, ws) := split_aux s in push w ws.

(** [xs[-1]] when [xs] is not empty. *)
Definition last_word (ws : list string) : option string := list.last ws.

End Text.
Import Text.

(* ===================================================================== *)
(** * Values, exceptions, messages and the world                          *)
(* ===================================================================== *)

(** What [json.loads] returns and [json.dumps] accepts.  A [dict] is a finite
    map with string keys; numbers are kept to the integers. *)
Inductive json :=
  | JNull
  | JBool (b : bool)
  | JInt (n : Z)
  | JString (s : string)
  | JList (xs : list json)
  | JDict (d : gmap string json).

(** The exceptions that the code can let escape. *)
Inductive exn :=
  | KeyError | AttributeError | TypeError | OSError | UnicodeDecodeError
  | GraphRecursionError.

Inductive result (A : Type) :=
  | Ok (a : A)
  | Raise (e : exn).
Arguments Ok {A} a.
Arguments Raise {A} e.

#[global] Instance result_ret : MRet result := fun _ a => Ok a.
#[global] Instance result_bind : MBind result := fun _ _ f m =>
  match m with
  | Ok a => f a
  | Raise e => Raise e
  end.

(** langchain_core.messages: the three message classes carry a text. *)
Inductive Role := SystemMessage | HumanMessage | AIMessage.

Record Message := { role : Role; content : string }.

Definition isinstance (m : Message) (r : Role) : bool :=
  match role m, r with
  | SystemMessage, SystemMessage
  | HumanMessage, HumanMessage
  | AIMessage, AIMessage => true
  | _, _ => false
  end.

(** langchain_core.documents.Document, with [metadata = {"source": ..}]. *)
Record Document := { page_content : string; source : string }.

(** data/user_profiles.json as the code can find it.  [json.loads] and
    [json.dumps] belong to Python's library: a file that parses is
    represented by the value it parses to, and writing [json.dumps v] leaves
    a file that holds [v]. *)
Inductive ProfileFile :=
  | Missing                 (* PROFILE_PATH.exists() is false *)
  | Unreadable              (* the path exists, read_text raises OSError *)
  | Undecodable             (* the bytes are not UTF-8: read_text raises
                               UnicodeDecodeError *)
  | Garbled (text : string) (* read_text returns text, json.loads raises
                               JSONDecodeError *)
  | Holds (doc : json).     (* json.loads returns doc *)

(** The environment of a run.
    - [profile_file]: data/user_profiles.json;
    - [episodes_file]: the text of data/episodes.jsonl, [None] when the file
      does not exist;
    - [policy_files]: what [POLICY_DIR.glob("*.txt")] yields, in its order,
      each path with the outcome of [path.read_text(encoding="utf-8")]: the
      text, or the exception raised (OSError when the file cannot be read,
      UnicodeDecodeError when its bytes are not UTF-8);
    - [writable]: whether the operating system accepts writes under data/;
    - [model_calls]: the prompts sent to the chat model so far. *)
Record World := {
  profile_file : ProfileFile;
  episodes_file : option string;
  policy_files : list (string * result string);
  writable : bool;
  model_calls : list (list Message);
}.

Definition set_profile_file (f : ProfileFile) (w : World) : World :=
  {| profile_file := f; episodes_file := episodes_file w;
     policy_files := policy_files w; writable := writable w;
     model_calls := model_calls w |}.

Definition set_episodes_file (t : string) (w : World) : World :=
  {| profile_file := profile_file w; episodes_file := Some t;
     policy_files := policy_files w; writable := writable w;
     model_calls := model_calls w |}.

Definition log_model_call (prompt : list Message) (w : World) : World :=
  {| profile_file := profile_file w; episodes_file := episodes_file w;
     policy_files := policy_files w; writable := writable w;
     model_calls := model_calls w ++ [prompt] |}.

(* ===================================================================== *)
(** * memory_store.py                                                     *)
(* ===================================================================== *)

Module MemoryStore.

(** The common prefix of [load_user_profile] and [save_user_profile]:
<<
    if PROFILE_PATH.exists():
        try: profiles = json.loads(PROFILE_PATH.read_text(encoding="utf-8"))
        except json.JSONDecodeError: profiles = {}
    else: profiles = {}
>> *)
Definition read_profiles (w : World) : result json :=
  match profile_file w with
  | Missing => Ok (JDict ∅)
  | Unreadable => Raise OSError
  | Undecodable => Raise UnicodeDecodeError
  | Garbled _ => Ok (JDict ∅)
  | Holds doc => Ok doc
  end.

(** [profiles.get(user_id, {})]; only a dict has [get]. *)
Definition load_user_profile (user_id : string) (w : World) : result json :=
  profiles ← read_profiles w;
  match profiles with
  | JDict d => Ok (default (JDict ∅) (d !! user_id))
  | _ => Raise AttributeError
  end.

(** [profiles[user_id] = profile] and the rewrite of the whole document. *)
Definition save_user_profile (user_id : string) (profile : json) (w : World)
  : result World :=
  profiles ← read_profiles w;
  match profiles with
  | JDict d =>
      if writable w
      then Ok (set_profile_file (Holds (JDict (<[user_id := profile]> d))) w)
      else Raise OSError
  | _ => Raise TypeError
  end.

(** ** [json.dumps] of a record of two strings *)

Definition dquote : ascii := "034".
Definition backslash : ascii := "092".
Definition newline : ascii := "010".

Definition hex_digit (n : N) : ascii :=
  match n with
  | 0%N => "0" | 1%N => "1" | 2%N => "2" | 3%N => "3" | 4%N => "4"
  | 5%N => "5" | 6%N => "6" | 7%N => "7" | 8%N => "8" | 9%N => "9"
  | 10%N => "a" | 11%N => "b" | 12%N => "c" | 13%N => "d" | 14%N => "e"
  | _ => "f"
  end.

(** The encoder's table: the quote and the backslash get a backslash, the
    five usual control characters their letter, every other character outside
    space..~ the form \u00xx, and the rest stand for themselves. *)
Definition escape_char (c : ascii) : string :=
  let n := N_of_ascii c in
  if Ascii.eqb c dquote then String backslash (String dquote EmptyString)
  else if Ascii.eqb c backslash then String backslash (String backslash EmptyString)
  else if Ascii.eqb c "008" then String backslash "b"
  else if Ascii.eqb c "012" then String backslash "f"
  else if Ascii.eqb c "010" then String backslash "n"
  else if Ascii.eqb c "013" then String backslash "r"
  else if Ascii.eqb c "009" then String backslash "t"
  else if ((n <? 32) || (126 <? n))%N
  then String backslash
         (String "u" (String "0" (String "0"
           (String (hex_digit (n / 16)) (String (hex_digit (n mod 16)) EmptyString)))))
  else String c EmptyString.

Fixpoint escape (s : string) : string :=
  match s with
  | EmptyString => EmptyString
  | String c r => escape_char c +:+ escape r
  end.

(** [json.dumps(s)] for a string [s]. *)
Definition dumps_string (s : string) : string :=
  String dquote (escape s +:+ String dquote EmptyString).

(** [json.dumps({"user_id": user_id, "summary": summary})] with the default
    separators. *)
Definition dumps_record (user_id summary : string) : string :=
  "{" +:+ dumps_string "user_id" +:+ ": " +:+ dumps_string user_id +:+ ", "
      +:+ dumps_string "summary" +:+ ": " +:+ dumps_string summary +:+ "}".

(** [append_episode]: the file is opened in mode "a" and receives one line. *)
Definition episodes_text (w : World) : string :=
  default EmptyString (episodes_file w).

Definition append_episode (user_id summary : string) (w : World)
  : result World :=
  if writable w
  then Ok (set_episodes_file
             (episodes_text w +:+ dumps_record user_id summary
                +:+ String newline EmptyString) w)
  else Raise OSError.

(** ** Reading the log back: [json.loads] on one line *)

Definition hex_value (c : ascii) : option N :=
  let n := N_of_ascii c in
  if ((48 <=? n) && (n <=? 57))%N then Some (n - 48)%N
  else if ((97 <=? n) && (n <=? 102))%N then Some (n - 87)%N
  else if ((65 <=? n) && (n <=? 70))%N then Some (n - 55)%N
  else None.

Definition hex4 (a b c d : ascii) : option N :=
  x ← hex_value a; y ← hex_value b; z ← hex_value c; t ← hex_value d;
  Some (((x * 16 + y) * 16 + z) * 16 + t)%N.

Definition unescape (e : ascii) : option ascii :=
  if Ascii.eqb e dquote then Some dquote
  else if Ascii.eqb e backslash then Some backslash
  else if Ascii.eqb e "/" then Some "/"%char
  else if Ascii.eqb e "b" then Some "008"%char
  else if Ascii.eqb e "f" then Some "012"%char
  else if Ascii.eqb e "n" then Some "010"%char
  else if Ascii.eqb e "r" then Some "013"%char
  else if Ascii.eqb e "t" then Some "009"%char
  else None.

Definition prepend (c : ascii) (p : string * string) : string * string :=
  (String c (fst p), snd p).

(** The decoder's string scanner, started after the opening quote: the
    decoded text and what follows the closing quote.  A raw control
    character, an unknown escape or a missing closing quote is an error; a
    \u escape at or above 256 leaves the modelled code points. *)
Fixpoint scan_string (s : string) : option (string * string) :=
  match s with
  | EmptyString => None
  | String c r =>
      if Ascii.eqb c dquote then Some (EmptyString, r)
      else if Ascii.eqb c backslash then
        match r with
        | EmptyString => None
        | String e r1 =>
            if Ascii.eqb e "u" then
              match r1 with
              | String h1 (String h2 (String h3 (String h4 r2))) =>
                  match hex4 h1 h2 h3 h4 with
                  | Some n =>
                      if (n <? 256)%N
                      then prepend (ascii_of_N n) <$> scan_string r2
                      else None
                  | None => None
                  end
              | _ => None
              end
            else
              match unescape e with
              | Some ch => prepend ch <$> scan_string r1
              | None => None
              end
        end
      else if (N_of_ascii c <? 32)%N then None
      else prepend c <$> scan_string r
  end.

Definition json_ws (c : ascii) : bool :=
  Ascii.eqb c " " || Ascii.eqb c "009" || Ascii.eqb c "010" || Ascii.eqb c "013".

Definition skip_ws (s : string) : string := lstrip_with json_ws s.

Definition expect (c : ascii) (s : string) : option string :=
  match skip_ws s with
  | String d r => if Ascii.eqb c d then Some r else None
  | EmptyString => None
  end.

Definition read_string (s : string) : option (string * string) :=
  r ← expect dquote s; scan_string r.

(** [json.loads(line)] for a line that is an object of two string members,
    returned as [(d["user_id"], d["summary"])]. *)
Definition loads_record (line : string) : option (string * string) :=
  s ← expect "{" line;
  '(k1, s) ← read_string s;
  s ← expect ":" s;
  '(v1, s) ← read_string s;
  s ← expect "," s;
  '(k2, s) ← read_string s;
  s ← expect ":" s;
  '(v2, s) ← read_string s;
  s ← expect "}" s;
  if is_empty (skip_ws s) && String.eqb k1 "user_id" && String.eqb k2 "summary"
  then Some (v1, v2) else None.

(** The lines of a text file: the pieces that end in a newline and, when the
    text does not end in one, the piece that is left. *)
Fixpoint lines (s : string) : list string :=
  match s with
  | EmptyString => []
  | String c r =>
      if Ascii.eqb c newline then EmptyString :: lines r
      else match lines r with
           | l :: ls => String c l :: ls
           | [] => [String c EmptyString]
           end
  end.

End MemoryStore.
Import MemoryStore.

(* ===================================================================== *)
(** * tools.py                                                            *)
(* ===================================================================== *)

Module Tools.

(** [raw_words = query.split()]
    [keywords = [w.strip(".,?!") for w in raw_words if len(w) > 3]]
    [if not keywords: keywords = [query]] *)
Definition extract_keywords (query : string) : list string :=
  let raw_words := split query in
  let keywords :=
    List.map (strip_chars ".,?!") (List.filter (fun w => 3 <? len w) raw_words) in
  match keywords with
  | [] => [query]
  | _ :: _ => keywords
  end.

(** [any(kw in text_lower for kw in keywords)] *)
Definition matches (keywords : list string) (text : string) : bool :=
  existsb (fun kw => contains kw (lower text)) keywords.

Definition make_document (path text : string) : Document :=
  {| page_content := text; source := path |}.

(** The loop over [POLICY_DIR.glob("*.txt")]: a file whose read raises
    OSError is skipped by [continue], so the test on [len(docs)] is not
    reached for it; any other exception of the read leaves the function. *)
Fixpoint scan_files (keywords : list string) (top_k : Z)
    (files : list (string * result string)) (docs : list Document)
  : result (list Document) :=
  match files with
  | [] => Ok docs
  | (_, Raise OSError) :: rest => scan_files keywords top_k rest docs
  | (_, Raise e) :: _ => Raise e
  | (path, Ok text) :: rest =>
      let docs' :=
        if matches keywords text then docs ++ [make_document path text]
        else docs in
      if (top_k <=? Z.of_nat (length docs'))%Z then Ok docs'
      else scan_files keywords top_k rest docs'
  end.

Definition search_policies (query : string) (top_k : Z) (w : World)
  : result (list Document) :=
  let query := lower (strip query) in
  if is_empty query then Ok []
  else scan_files (extract_keywords query) top_k (policy_files w) [].

(** The default [top_k: int = 3]. *)
Definition default_top_k : Z := 3.

Definition get_user_profile_tool (user_id : string) (w : World) : result json :=
  load_user_profile user_id w.

(** [profile.update(new_fields)]: the entries of [new_fields] replace those
    of [profile] with the same key, the others stay. *)
Definition dict_update (profile new_fields : gmap string json)
  : gmap string json :=
  new_fields ∪ profile.

Definition update_user_profile_tool (user_id : string)
    (new_fields : gmap string json) (w : World) : result (json * World) :=
  profile ← load_user_profile user_id w;
  match profile with
  | JDict d =>
      let merged := JDict (dict_update d new_fields) in
      w' ← save_user_profile user_id merged w;
      Ok (merged, w')
  | _ => Raise AttributeError
  end.

End Tools.
Import Tools.

(* ===================================================================== *)
(** * graph.py                                                            *)
(* ===================================================================== *)

Module Graph.

(** [AgentState] is a [TypedDict] with [total=False]: any key can be
    missing, and a missing key is [None] here. *)
Record AgentState := {
  messages : option (list Message);
  user_id : option string;
  user_profile : option json;
  profile_updated : option bool;
  policy_query : option string;
  retrieved_policies : option (list Document);
  tool_results : option json;
  next_action : option string;
  done : option bool;
}.

Definition set_messages (v : list Message) (s : AgentState) : AgentState :=
  {| messages := Some v; user_id := user_id s; user_profile := user_profile s;
     profile_updated := profile_updated s; policy_query := policy_query s;
     retrieved_policies := retrieved_policies s;
     tool_results := tool_results s; next_action := next_action s;
     done := done s |}.

Definition set_user_profile (v : json) (s : AgentState) : AgentState :=
  {| messages := messages s; user_id := user_id s; user_profile := Some v;
     profile_updated := profile_updated s; policy_query := policy_query s;
     retrieved_policies := retrieved_policies s;
     tool_results := tool_results s; next_action := next_action s;
     done := done s |}.

Definition set_profile_updated (v : bool) (s : AgentState) : AgentState :=
  {| messages := messages s; user_id := user_id s;
     user_profile := user_profile s; profile_updated := Some v;
     policy_query := policy_query s;
     retrieved_policies := retrieved_policies s;
     tool_results := tool_results s; next_action := next_action s;
     done := done s |}.

Definition set_policy_query (v : string) (s : AgentState) : AgentState :=
  {| messages := messages s; user_id := user_id s;
     user_profile := user_profile s; profile_updated := profile_updated s;
     policy_query := Some v; retrieved_policies := retrieved_policies s;
     tool_results := tool_results s; next_action := next_action s;
     done := done s |}.

Definition set_retrieved_policies (v : list Document) (s : AgentState)
  : AgentState :=
  {| messages := messages s; user_id := user_id s;
     user_profile := user_profile s; profile_updated := profile_updated s;
     policy_query := policy_query s; retrieved_policies := Some v;
     tool_results := tool_results s; next_action := next_action s;
     done := done s |}.

Definition set_tool_results (v : json) (s : AgentState) : AgentState :=
  {| messages := messages s; user_id := user_id s;
     user_profile := user_profile s; profile_updated := profile_updated s;
     policy_query := policy_query s;
     retrieved_policies := retrieved_policies s; tool_results := Some v;
     next_action := next_action s; done := done s |}.

Definition set_next_action (v : string) (s : AgentState) : AgentState :=
  {| messages := messages s; user_id := user_id s;
     user_profile := user_profile s; profile_updated := profile_updated s;
     policy_query := policy_query s;
     retrieved_policies := retrieved_policies s;
     tool_results := tool_results s; next_action := Some v; done := done s |}.

Definition set_done (v : bool) (s : AgentState) : AgentState :=
  {| messages := messages s; user_id := user_id s;
     user_profile := user_profile s; profile_updated := profile_updated s;
     policy_query := policy_query s;
     retrieved_policies := retrieved_policies s;
     tool_results := tool_results s; next_action := next_action s;
     done := Some v |}.

(** [state.setdefault(key, value)] for the three keys that use it. *)
Definition setdefault_retrieved_policies (s : AgentState) : AgentState :=
  match retrieved_policies s with
  | Some _ => s
  | None => set_retrieved_policies [] s
  end.

Definition setdefault_tool_results (s : AgentState) : AgentState :=
  match tool_results s with
  | Some _ => s
  | None => set_tool_results (JDict ∅) s
  end.

Definition setdefault_done (s : AgentState) : AgentState :=
  match done s with
  | Some _ => s
  | None => set_done false s
  end.

(** [state.get("messages", [])] *)
Definition get_messages (s : AgentState) : list Message :=
  default [] (messages s).

(** [state.setdefault("messages", []).append(m)] *)
Definition append_message (m : Message) (s : AgentState) : AgentState :=
  set_messages (get_messages s ++ [m]) s.

(** The loop [for m in reversed(messages): if isinstance(m, C): .. break]. *)
Definition last_of (r : Role) (msgs : list Message) : option Message :=
  List.find (fun m => isinstance m r) (rev msgs).

Definition join_lines (ls : list string) : string :=
  String.concat (String newline EmptyString) ls.

Definition policy_keywords : list string :=
  ["refund"; "loan"; "privacy"; "ticket"; "escalation"; "policy"].

(** [state.get("policy_query") == last_human.content] *)
Definition already_searched (s : AgentState) (m : Message) : bool :=
  match policy_query s with
  | Some q => String.eqb q (content m)
  | None => false
  end.

(** The test of the keyword router, [False] when there is no user message. *)
Definition keyword_router (s : AgentState) : bool :=
  match last_of HumanMessage (get_messages s) with
  | Some last_human =>
      let text := lower (content last_human) in
      existsb (fun kw => contains kw text) policy_keywords
      && negb (already_searched s last_human)
  | None => false
  end.

Definition planner_system : Message :=
  {| role := SystemMessage;
     content := join_lines
       [ "You are a support copilot for internal policies.";
         "You can decide one of these next actions:";
         "- search_policies: when you need to look up a policy document.";
         "- update_profile: when the user shares stable preferences or profile info (e.g., favorite color).";
         "- ask_clarification: when the question is unclear and you need more info.";
         "- answer: when you can answer directly from the current context.";
         "In your reply, clearly include the chosen action name exactly once in this format:";
         "Action: search_policies";
         "or";
         "Action: update_profile";
         "or";
         "Action: ask_clarification";
         "or";
         "Action: answer" ] |}.

(** The chain of [if .. elif .. else] on the lowercased reply. *)
Definition parse_action (content_lower : string) : string :=
  if contains "action: search_policies" content_lower then "search_policies"
  else if contains "action: update_profile" content_lower then "update_profile"
  else if contains "action: ask_clarification" content_lower
  then "ask_clarification"
  else if contains "action: answer" content_lower then "answer"
  else "answer".

Definition answer_system : Message :=
  {| role := SystemMessage;
     content := join_lines
       [ "You are a helpful, concise support copilot.";
         "Use the user profile, any retrieved policy snippets, and the conversation to answer the user's latest question.";
         "If you looked up policies, briefly mention that you checked the policy documents.";
         "If you updated the user's profile, you may briefly acknowledge it." ] |}.

Definition nl : string := String newline EmptyString.

(** The toy rule of [run_tools]: the fields taken from the user's text. *)
Definition extract_fields (last_human : option Message) : gmap string json :=
  match last_human with
  | Some m =>
      let text := strip (content m) in
      if contains "favorite color" (lower text) then
        match last_word (split (remove_dots text)) with
        | Some w => {[ "favorite_color" := JString w ]}
        | None => ∅
        end
      else ∅
  | None => ∅
  end.

(** The nodes of the graph, and [END]. *)
Inductive Node :=
  | N_ingest_user | N_planner | N_run_tools | N_answer | N_log_episode | END.

(** The table of [add_conditional_edges]. *)
Definition conditional_edge (action : string) : option Node :=
  if String.eqb action "answer" then Some N_answer
  else if String.eqb action "search_policies" then Some N_run_tools
  else if String.eqb action "update_profile" then Some N_run_tools
  else if String.eqb action "ask_clarification" then Some N_answer
  else None.

Section Agent.

(** The chat model: its reply to a prompt, given how many calls came before.
    Any sequence of replies is such a function. *)
Variable chat : nat -> list Message -> string.

(** How Python prints a value inside an f-string. *)
Variable py_str : json -> string.

(** llm.py, [call_llm]. *)
Definition call_llm (prompt : list Message) (w : World) : Message * World :=
  ({| role := AIMessage; content := chat (length (model_calls w)) prompt |},
   log_model_call prompt w).

Definition ingest_user (s : AgentState) (w : World)
  : result (AgentState * World) :=
  s1 ← match user_id s, user_profile s with
       | Some uid, None =>
           if is_empty uid then Ok s
           else
             profile ← get_user_profile_tool uid w;
             Ok (set_profile_updated false (set_user_profile profile s))
       | _, _ => Ok s
       end;
  Ok (setdefault_done
        (setdefault_tool_results (setdefault_retrieved_policies s1)), w).

Definition planner (s : AgentState) (w : World) : AgentState * World :=
  if keyword_router s then (set_next_action "search_policies" s, w)
  else
    let '(ai_msg, w') := call_llm (planner_system :: get_messages s) w in
    let s' := append_message ai_msg s in
    (set_next_action (parse_action (lower (content ai_msg))) s', w').

Definition run_tools (s : AgentState) (w : World)
  : result (AgentState * World) :=
  let action := default "answer" (next_action s) in
  match user_id s with
  | None => Raise KeyError
  | Some uid =>
      let last_human := last_of HumanMessage (get_messages s) in
      '(s1, w1) ←
        (if String.eqb action "search_policies" then
           let query :=
             match last_human with
             | Some m => content m
             | None => EmptyString
             end in
           hits ← search_policies query default_top_k w;
           Ok (set_retrieved_policies hits (set_policy_query query s), w)
         else if String.eqb action "update_profile" then
           let new_fields := extract_fields last_human in
           if decide (new_fields = ∅) then Ok (s, w)
           else
             '(updated_profile, w') ← update_user_profile_tool uid new_fields w;
             Ok (set_profile_updated true
                   (set_user_profile updated_profile s), w')
         else Ok (s, w));
      Ok (setdefault_tool_results s1, w1)
  end.

Definition answer_context (s : AgentState) : Message :=
  let profile_context :=
    "[USER_PROFILE]" +:+ nl
      +:+ py_str (default (JDict ∅) (user_profile s)) +:+ nl in
  let policy_context :=
    fold_left
      (fun acc doc =>
         acc +:+ nl +:+ "[POLICY from " +:+ source doc +:+ "]" +:+ nl
             +:+ page_content doc +:+ nl)
      (default [] (retrieved_policies s)) EmptyString in
  {| role := SystemMessage;
     content := "Context for this conversation:" +:+ nl
                  +:+ profile_context +:+ nl +:+ policy_context |}.

Definition answer (s : AgentState) (w : World) : AgentState * World :=
  let '(ai_msg, w') :=
    call_llm (answer_system :: answer_context s :: get_messages s) w in
  (set_done true (append_message ai_msg s), w').

Definition log_episode_node (s : AgentState) (w : World)
  : result (AgentState * World) :=
  match last_of AIMessage (get_messages s) with
  | Some last_ai =>
      w' ← append_episode (default "unknown-user" (user_id s))
                          (content last_ai) w;
      Ok (s, w')
  | None => Ok (s, w)
  end.

(** [build_graph]: one step runs a node and follows its edge. *)
Definition step (n : Node) (s : AgentState) (w : World)
  : result (Node * AgentState * World) :=
  match n with
  | N_ingest_user =>
      '(s', w') ← ingest_user s w; Ok (N_planner, s', w')
  | N_planner =>
      let '(s', w') := planner s w in
      match next_action s' with
      | Some a =>
          match conditional_edge a with
          | Some n' => Ok (n', s', w')
          | None => Raise KeyError
          end
      | None => Raise KeyError
      end
  | N_run_tools =>
      '(s', w') ← run_tools s w; Ok (N_planner, s', w')
  | N_answer =>
      let '(s', w') := answer s w in Ok (N_log_episode, s', w')
  | N_log_episode =>
      '(s', w') ← log_episode_node s w; Ok (END, s', w')
  | END => Ok (END, s, w)
  end.

(** Running from a node until [END] under the runtime's [recursion_limit].
    Every node that runs takes one unit of the limit, and so does the last
    look of the runtime that finds [END]: a path of k nodes needs a limit of
    k + 1, and running out of the limit raises. *)
Fixpoint run (limit : nat) (n : Node) (s : AgentState) (w : World)
  : result (AgentState * World) :=
  match limit with
  | 0 => Raise GraphRecursionError
  | S limit' =>
      match n with
      | END => Ok (s, w)
      | _ => '(n', s', w') ← step n s w; run limit' n' s' w'
      end
  end.

(** [app.invoke(state, ..)] *)
Definition invoke (limit : nat) (s : AgentState) (w : World)
  : result (AgentState * World) :=
  run limit N_ingest_user s w.

End Agent.

End Graph.
Import Graph.

(* ===================================================================== *)
(** * app.py                                                              *)
(* ===================================================================== *)

Module App.

Definition demo_user : string := "demo-user-123".

(** The initial state of [main]. *)
Definition initial_state : AgentState :=
  {| messages := Some []; user_id := Some demo_user; user_profile := None;
     profile_updated := None; policy_query := None;
     retrieved_policies := None; tool_results := None; next_action := None;
     done := None |}.

Definition is_exit_word (s : string) : bool :=
  String.eqb s "exit" || String.eqb s "quit" || String.eqb s "q".

Section Driver.

Variable chat : nat -> list Message -> string.
Variable py_str : json -> string.
Variable limit : nat.

(** One pass of the [while True] body for a line that is neither an exit
    word nor empty: the user's message is appended, the graph is invoked and
    its state replaces the session's. *)
Definition turn (user_input : string) (s : AgentState) (w : World)
  : result (AgentState * World) :=
  invoke chat py_str limit
    (append_message {| role := HumanMessage; content := user_input |} s) w.

(** The loop over the lines typed by the user; the end of the list is the
    end of input.  What is printed is not part of the state. *)
Fixpoint main_loop (inputs : list string) (s : AgentState) (w : World)
  : result (AgentState * World) :=
  match inputs with
  | [] => Ok (s, w)
  | raw :: rest =>
      let user_input := strip raw in
      if is_exit_word (lower user_input) then Ok (s, w)
      else if is_empty user_input then main_loop rest s w
      else '(s', w') ← turn user_input s w; main_loop rest s' w'
  end.

End Driver.

End App.
Import App.

(* ===================================================================== *)
(** * Vocabulary of the statements                                        *)
(* ===================================================================== *)

(** Some character of [s] satisfies [p]. *)
Fixpoint any_char (p : ascii -> bool) (s : string) : bool :=
  match s with
  | EmptyString => false
  | String c r => p c || any_char p r
  end.

(** Every character of [s] satisfies [p]. *)
Fixpoint all_chars (p : ascii -> bool) (s : string) : bool :=
  match s with
  | EmptyString => true
  | String c r => p c && all_chars p r
  end.

(** [s] is not empty and its last character is not white space. *)
Fixpoint ends_nonspace (s : string) : bool :=
  match s with
  | EmptyString => false
  | String c EmptyString => negb (is_space c)
  | String _ r => ends_nonspace r
  end.

(** [s] is not empty and its first character is not white space. *)
Definition starts_nonspace (s : string) : bool :=
  match s with
  | EmptyString => false
  | String c _ => negb (is_space c)
  end.

(** The four characters that [search_policies] strips from a word. *)
Definition is_punct (c : ascii) : bool := char_in c ".,?!".

(** The four markers of the planner's instruction, in the order in which the
    reply is searched for them, each with its action. *)
Definition action_markers : list (string * string) :=
  [ ("action: search_policies", "search_policies");
    ("action: update_profile", "update_profile");
    ("action: ask_clarification", "ask_clarification");
    ("action: answer", "answer") ].

(** The action of the first marker of the list that occurs in [text], and
    ["answer"] when none does. *)
Definition first_marker_found (text : string) : string :=
  match List.find (fun p => contains (fst p) text) action_markers with
  | Some p => snd p
  | None => "answer"
  end.

(** An assistant message. *)
Definition ai_message (text : string) : Message :=
  {| role := AIMessage; content := text |}.

(** A user message. *)
Definition human_message (text : string) : Message :=
  {| role := HumanMessage; content := text |}.

(** A world with no file at all and a writable data directory. *)
Definition empty_world : World :=
  {| profile_file := Missing; episodes_file := None; policy_files := [];
     writable := true; model_calls := [] |}.

(** A world that differs from [empty_world] in its profiles file. *)
Definition world_with_profiles (f : ProfileFile) : World :=
  set_profile_file f empty_world.

(** A sequence of calls [append_episode(user_id, summary)]. *)
Fixpoint append_episodes (calls : list (string * string)) (w : World)
  : result World :=
  match calls with
  | [] => Ok w
  | (user_id, summary) :: rest =>
      w' ← append_episode user_id summary w; append_episodes rest w'
  end.

(** The text written by a sequence of calls. *)
Fixpoint episode_lines (calls : list (string * string)) : string :=
  match calls with
  | [] => EmptyString
  | (user_id, summary) :: rest =>
      dumps_record user_id summary +:+ String newline (episode_lines rest)
  end.

(** A text file whose last line, if any, is ended by a newline. *)
Fixpoint complete (s : string) : bool :=
  match s with
  | EmptyString => true
  | String c EmptyString => Ascii.eqb c newline
  | String _ r => complete r
  end.

(** The documents of the policy files that can be read, in the order of the
    directory listing. *)
Fixpoint readable_documents (files : list (string * result string))
  : list Document :=
  match files with
  | [] => []
  | (path, Ok text) :: rest => make_document path text :: readable_documents rest
  | (_, Raise _) :: rest => readable_documents rest
  end.

(** A world that differs from [empty_world] in its policy files. *)
Definition world_with_policies (files : list (string * result string))
  : World :=
  {| profile_file := Missing; episodes_file := None; policy_files := files;
     writable := true; model_calls := [] |}.

(** The keywords as the specification words them: the words of the
    normalized query longer than 3 characters, each without its trailing
    [.,?!], or the whole normalized query when there is no such word. *)
Definition spec_keywords (query : string) : list string :=
  let normalized := lower (strip query) in
  match List.map (rstrip_chars ".,?!")
                 (List.filter (fun w => 3 <? len w) (split normalized)) with
  | [] => [normalized]
  | k :: ks => k :: ks
  end.

(** A turn is complete from [s] to [s']: [done] is true and the messages of
    [s'] are those of [s] followed by new ones, an assistant's among them. *)
Definition turn_complete (s s' : AgentState) : Prop :=
  done s' = Some true
  /\ exists added,
       get_messages s' = get_messages s ++ added
       /\ Exists (fun m => role m = AIMessage) added.

(** The messages of [s'] are those of [s], possibly followed by new ones. *)
Definition messages_grow (s s' : AgentState) : Prop :=
  get_messages s `prefix_of` get_messages s'.

(** ** Concrete runs *)

(** A chat model that answers its first planning request with the action
    "answer" and every later request with a sentence. *)
Definition scripted_chat (n : nat) (prompt : list Message) : string :=
  match n with
  | 0 => "Action: answer"
  | _ => "Refunds are accepted within 30 days."
  end.

(** A printer of values that prints every value alike. *)
Definition plain_str (v : json) : string := "{..}".

(** The state of the driver after the user has typed [text]. *)
Definition state_after_input (text : string) : AgentState :=
  append_message (human_message text) initial_state.

(** The same state once the planner has chosen [action]. *)
Definition state_with_action (text action : string) : AgentState :=
  set_next_action action (state_after_input text).

(** The same state once a search for [text] has been recorded. *)
Definition state_after_search (text : string) : AgentState :=
  set_policy_query text (state_after_input text).

(** A policy directory with one file about refunds. *)
Definition refund_world : World :=
  world_with_policies
    [("policies/refund.txt", Ok "Refunds are accepted within 30 days.")].

(** The documents of the readable policy files that match the keywords of
    [query], in the order of the directory listing; none for a blank
    query. *)
Definition matching_documents (query : string) (w : World) : list Document :=
  let normalized := lower (strip query) in
  if is_empty normalized then []
  else List.filter
         (fun doc => matches (extract_keywords normalized) (page_content doc))
         (readable_documents (policy_files w)).

(** A text that does not start with a character of [drop]. *)
Definition clean_start (drop : ascii -> bool) (s : string) : Prop :=
  match s with
  | EmptyString => True
  | String c _ => drop c = false
  end.

(** The state carries one of the two actions that lead to the answer. *)
Definition answering (s : AgentState) : Prop :=
  next_action s = Some "answer" \/ next_action s = Some "ask_clarification".

(** The chat model never asks for a tool: none of its replies carries the
    marker of a search or of a profile update. *)
Definition never_asks_for_tool (chat : nat -> list Message -> string) : Prop :=
  forall n prompt,
    contains "action: search_policies" (lower (chat n prompt)) = false
    /\ contains "action: update_profile" (lower (chat n prompt)) = false.

(** A character that [json.dumps] may write: space to tilde. *)
Definition printable (c : ascii) : bool :=
  let n := N_of_ascii c in ((32 <=? n) && (n <=? 126))%N.

(** A sequence of turns of the driver, one for each line. *)
Fixpoint turns (chat : nat -> list Message -> string) (py_str : json -> string)
    (limit : nat) (inputs : list string) (s : AgentState) (w : World)
  : result (AgentState * World) :=
  match inputs with
  | [] => Ok (s, w)
  | line :: rest =>
      '(s', w') ← turn chat py_str limit line s w;
      turns chat py_str limit rest s' w'
  end.

(** The lines that reach the graph: those before the first exit word,
    stripped, the blank ones left out. *)
Fixpoint effective_inputs (inputs : list string) : list string :=
  match inputs with
  | [] => []
  | raw :: rest =>
      if is_exit_word (lower (strip raw)) then []
      else if is_empty (strip raw) then effective_inputs rest
      else strip raw :: effective_inputs rest
  end.

(** The chat model asks for a tool in every reply: each carries the marker
    of a search or of a profile update. *)
Definition always_asks_for_tool (chat : nat -> list Message -> string) : Prop :=
  forall n prompt,
    contains "action: search_policies" (lower (chat n prompt)) = true
    \/ contains "action: update_profile" (lower (chat n prompt)) = true.

(** No read of a policy file raises anything but OSError: every file is
    read as text or skipped. *)
Definition no_fatal_read (files : list (string * result string)) : Prop :=
  forall path e, In (path, Raise e) files -> e = OSError.

(** The replies of successive planning steps that ask the model: each is
    the model's reply to the planner's prompt over the conversation so far,
    [k] being the number of calls of the model made before it. *)
Fixpoint planning_replies (chat : nat -> list Message -> string) (k : nat)
    (msgs planning : list Message) : Prop :=
  match planning with
  | [] => True
  | m :: rest =>
      m = ai_message (chat k (planner_system :: msgs))
      /\ planning_replies chat (S k) (msgs ++ [m]) rest
  end.

(** The prompts of those planning steps. *)
Fixpoint planner_prompts (msgs planning : list Message)
  : list (list Message) :=
  match planning with
  | [] => []
  | m :: rest => (planner_system :: msgs) :: planner_prompts (msgs ++ [m]) rest
  end.

(** The least recursion limit with which a run from a node can end: the
    nodes of the shortest path of the graph from it to [END], and one for
    [END]. *)
Definition min_limit (n : Node) : nat :=
  match n with
  | N_ingest_user => 5
  | N_planner => 4
  | N_run_tools => 5
  | N_answer => 3
  | N_log_episode => 2
  | END => 1
  end.

(* ===================================================================== *)
(** * Facts about the text operations                                     *)
(* ===================================================================== *)

Ltac each_char c := destruct c as [[] [] [] [] [] [] [] []].

Example split_example :
  split "  What is  the refund policy? "
  = ["What"; "is"; "the"; "refund"; "policy?"].
Proof. reflexivity. Qed.

Example strip_example :
  strip "  q  " = "q" /\ strip_chars ".,?!" "?!policy?." = "policy".
Proof. split; reflexivity. Qed.

Example dumps_record_example :
  loads_record (dumps_record "u1" ("a" +:+ String dquote (String newline "b\")))
  = Some ("u1", "a" +:+ String dquote (String newline "b\")).
Proof. vm_compute. reflexivity. Qed.

Section TextFacts.

Lemma is_space_lower_char c : is_space (lower_char c) = is_space c.
Proof. each_char c; reflexivity. Qed.

Lemma is_empty_true s : is_empty s = true -> s = EmptyString.
Proof. destruct s; [reflexivity | discriminate]. Qed.

Lemma is_empty_lower s : is_empty (lower s) = is_empty s.
Proof. destruct s; reflexivity. Qed.

Lemma append_cons c r s : String c r +:+ s = String c (r +:+ s).
Proof. reflexivity. Qed.

Lemma append_empty_l s : EmptyString +:+ s = s.
Proof. reflexivity. Qed.

Lemma append_empty_r s : s +:+ EmptyString = s.
Proof.
  induction s as [|c r IH]; [reflexivity | now rewrite append_cons, IH].
Qed.

Lemma append_assoc (a b c : string) : (a +:+ b) +:+ c = a +:+ (b +:+ c).
Proof.
  induction a as [|x r IH]; [reflexivity | now rewrite !append_cons, IH].
Qed.

(** ** [split] *)

Lemma split_cons c r :
  split (String c r) = if is_space c then split r
                       else let '(w, ws) := split_aux r in String c w :: ws.
Proof.
  unfold split; simpl. destruct (split_aux r) as [w ws].
  destruct (is_space c); reflexivity.
Qed.

Lemma push_lower w ws :
  push (lower w) (List.map lower ws) = List.map lower (push w ws).
Proof. unfold push. rewrite is_empty_lower. now destruct (is_empty w). Qed.

Lemma split_aux_lower s :
  split_aux (lower s)
  = (lower (fst (split_aux s)), List.map lower (snd (split_aux s))).
Proof.
  induction s as [|c r IH]; simpl; [reflexivity |].
  rewrite IH, is_space_lower_char.
  destruct (split_aux r) as [w ws]; simpl.
  destruct (is_space c); simpl; [now rewrite push_lower | reflexivity].
Qed.

Lemma split_lower s : split (lower s) = List.map lower (split s).
Proof.
  unfold split. rewrite split_aux_lower.
  destruct (split_aux s) as [w ws]; simpl. apply push_lower.
Qed.

(** Stripping white space changes no word, also under a filter that keeps
    the white space. *)
Section Filtered.

Variable keep : ascii -> bool.
Hypothesis keep_space : forall c, is_space c = true -> keep c = true.

Lemma split_aux_filter_cons c r r' :
  split_aux (filter_chars keep r) = split_aux (filter_chars keep r') ->
  split_aux (filter_chars keep (String c r))
  = split_aux (filter_chars keep (String c r')).
Proof.
  intros H. simpl. destruct (keep c); simpl; now rewrite H.
Qed.

Lemma split_aux_filter_rstrip s :
  split_aux (filter_chars keep (rstrip_with is_space s))
  = split_aux (filter_chars keep s).
Proof.
  induction s as [|c r IH]; [reflexivity |].
  cbn [rstrip_with].
  destruct (is_space c && is_empty (rstrip_with is_space r)) eqn:E.
  - apply andb_true_iff in E as [Hc Hr]. apply is_empty_true in Hr.
    rewrite Hr in IH. simpl in IH. simpl.
    rewrite (keep_space _ Hc). simpl. rewrite <- IH, Hc. reflexivity.
  - now apply split_aux_filter_cons.
Qed.

Lemma split_filter_lstrip s :
  split (filter_chars keep (lstrip_with is_space s))
  = split (filter_chars keep s).
Proof.
  induction s as [|c r IH]; [reflexivity |].
  cbn [lstrip_with]. destruct (is_space c) eqn:Hc; [| reflexivity].
  rewrite IH. cbn [filter_chars]. rewrite (keep_space _ Hc).
  rewrite split_cons, Hc. reflexivity.
Qed.

Lemma split_filter_strip s :
  split (filter_chars keep (strip s)) = split (filter_chars keep s).
Proof.
  unfold strip, strip_with, split.
  rewrite split_aux_filter_rstrip. apply split_filter_lstrip.
Qed.

End Filtered.

Lemma filter_chars_all s : filter_chars (fun _ => true) s = s.
Proof. induction s as [|c r IH]; simpl; [reflexivity | now rewrite IH]. Qed.

Lemma split_strip s : split (strip s) = split s.
Proof.
  pose proof (split_filter_strip (fun _ => true) (fun _ _ => eq_refl) s) as H.
  now rewrite !filter_chars_all in H.
Qed.

Lemma split_remove_dots_strip s :
  split (remove_dots (strip s)) = split (remove_dots s).
Proof.
  apply split_filter_strip. intros c Hc.
  each_char c; try reflexivity; discriminate.
Qed.

(** ** [lower] and [strip] commute *)

Lemma lower_lstrip s :
  lower (lstrip_with is_space s) = lstrip_with is_space (lower s).
Proof.
  induction s as [|c r IH]; [reflexivity |].
  simpl. rewrite is_space_lower_char. now destruct (is_space c).
Qed.

Lemma lower_rstrip s :
  lower (rstrip_with is_space s) = rstrip_with is_space (lower s).
Proof.
  induction s as [|c r IH]; [reflexivity |].
  simpl. rewrite is_space_lower_char, <- IH, is_empty_lower.
  now destruct (is_space c && is_empty (rstrip_with is_space r)).
Qed.

Lemma lower_strip s : lower (strip s) = strip (lower s).
Proof. unfold strip, strip_with. now rewrite lower_rstrip, lower_lstrip. Qed.

End TextFacts.

Section ContainsFacts.

Lemma startswith_rstrip p s :
  ends_nonspace p = true ->
  startswith p (rstrip_with is_space s) = startswith p s.
Proof.
  revert p. induction s as [|c r IH]; intros p Hp; [reflexivity |].
  destruct p as [|a p']; [discriminate |].
  cbn [rstrip_with].
  destruct (is_space c && is_empty (rstrip_with is_space r)) eqn:E.
  - apply andb_true_iff in E as [Hc Hr]. apply is_empty_true in Hr.
    simpl. symmetry. destruct p' as [|b p''].
    + simpl in Hp. destruct (Ascii.eqb_spec a c) as [->|]; [| reflexivity].
      rewrite Hc in Hp. discriminate.
    + rewrite <- (IH (String b p'') Hp), Hr. simpl. apply andb_false_r.
  - simpl. destruct p' as [|b p'']; [reflexivity |].
    now rewrite (IH (String b p'') Hp).
Qed.

Lemma contains_rstrip p s :
  ends_nonspace p = true ->
  contains p (rstrip_with is_space s) = contains p s.
Proof.
  intros Hp. induction s as [|c r IH]; [reflexivity |].
  pose proof (startswith_rstrip p (String c r) Hp) as Hs.
  cbn [rstrip_with] in *.
  destruct (is_space c && is_empty (rstrip_with is_space r)) eqn:E.
  - apply andb_true_iff in E as [Hc Hr]. apply is_empty_true in Hr.
    rewrite Hr in IH. change (contains p (String c r))
      with (startswith p (String c r) || contains p r).
    rewrite <- IH, <- Hs. destruct p; [discriminate | reflexivity].
  - cbn [contains]. now rewrite Hs, IH.
Qed.

Lemma contains_lstrip p s :
  starts_nonspace p = true ->
  contains p (lstrip_with is_space s) = contains p s.
Proof.
  intros Hp. induction s as [|c r IH]; [reflexivity |].
  cbn [lstrip_with]. destruct (is_space c) eqn:Hc; [| reflexivity].
  rewrite IH. cbn [contains]. destruct p as [|a p']; [discriminate |].
  simpl. destruct (Ascii.eqb_spec a c) as [->|]; [| reflexivity].
  simpl in Hp. rewrite Hc in Hp. discriminate.
Qed.

Lemma contains_strip p s :
  starts_nonspace p = true -> ends_nonspace p = true ->
  contains p (strip s) = contains p s.
Proof.
  intros H1 H2. unfold strip, strip_with.
  now rewrite contains_rstrip, contains_lstrip.
Qed.

(** A text that contains [String a p] has the character [a]. *)
Lemma contains_first_char a p s :
  contains (String a p) s = true -> any_char (Ascii.eqb a) s = true.
Proof.
  induction s as [|c r IH]; simpl; [discriminate |].
  destruct (Ascii.eqb a c); [reflexivity |]. simpl. exact IH.
Qed.

Lemma any_char_lower p s :
  any_char p (lower s) = any_char (fun c => p (lower_char c)) s.
Proof. induction s as [|c r IH]; simpl; [reflexivity | now rewrite IH]. Qed.

Lemma any_char_weaken (p q : ascii -> bool) s :
  (forall c, p c = true -> q c = true) ->
  any_char p s = true -> any_char q s = true.
Proof.
  intros Hpq. induction s as [|c r IH]; simpl; [discriminate |].
  intros [H|H]%orb_true_iff; apply orb_true_iff; [left | right]; auto.
Qed.

Lemma any_char_filter keep p s :
  any_char p (filter_chars keep s) = any_char (fun c => keep c && p c) s.
Proof.
  induction s as [|c r IH]; simpl; [reflexivity |].
  destruct (keep c); simpl; now rewrite IH.
Qed.

(** A text with a character that is not white space has a word. *)
Lemma split_aux_nonspace s :
  any_char (fun c => negb (is_space c)) s = true ->
  push (fst (split_aux s)) (snd (split_aux s)) <> [].
Proof.
  induction s as [|c r IH]; simpl; [discriminate |].
  destruct (split_aux r) as [w ws]; simpl in *.
  destruct (is_space c); simpl; [exact IH | discriminate].
Qed.

Lemma split_nonspace s :
  any_char (fun c => negb (is_space c)) s = true -> split s <> [].
Proof.
  intros H. apply split_aux_nonspace in H. unfold split.
  now destruct (split_aux s).
Qed.

Lemma last_word_some ws : ws <> [] -> exists w, last_word ws = Some w.
Proof.
  unfold last_word. intros H. destruct (list.last ws) eqn:E; [eauto |].
  now apply last_None in E.
Qed.

(** The phrase of the toy rule forces a last word. *)
Lemma favorite_color_has_word s :
  contains "favorite color" (lower s) = true ->
  exists w, last_word (split (remove_dots s)) = Some w.
Proof.
  intros H. apply last_word_some, split_nonspace.
  apply contains_first_char in H. rewrite any_char_lower in H.
  unfold remove_dots. rewrite any_char_filter.
  revert H. apply any_char_weaken. intros c.
  each_char c; try discriminate; reflexivity.
Qed.

(** The test of the toy rule reads the same on the stripped text. *)
Lemma favorite_color_strip s :
  contains "favorite color" (lower (strip s))
  = contains "favorite color" (lower s).
Proof. rewrite lower_strip. now apply contains_strip. Qed.

End ContainsFacts.

(* ===================================================================== *)
(** * The planner                                                         *)
(* ===================================================================== *)

Section PlannerFacts.

Variable chat : nat -> list Message -> string.

Lemma already_searched_false s m :
  policy_query s <> Some (content m) -> already_searched s m = false.
Proof.
  unfold already_searched. destruct (policy_query s) as [q|]; [| reflexivity].
  intros H. destruct (String.eqb_spec q (content m)) as [->|]; [| reflexivity].
  now destruct H.
Qed.

Lemma already_searched_true s m :
  policy_query s = Some (content m) -> already_searched s m = true.
Proof. unfold already_searched. intros ->. apply String.eqb_refl. Qed.

(** What the planner does once the keyword router has declined. *)
Lemma planner_model_based s w :
  keyword_router s = false ->
  planner chat s w
  = (set_next_action
       (parse_action
          (lower (chat (length (model_calls w))
                       (planner_system :: get_messages s))))
       (append_message
          (ai_message (chat (length (model_calls w))
                            (planner_system :: get_messages s))) s),
     log_model_call (planner_system :: get_messages s) w).
Proof. intros H. unfold planner. rewrite H. reflexivity. Qed.

Lemma parse_action_first_marker text :
  parse_action text = first_marker_found text.
Proof.
  unfold parse_action, first_marker_found, action_markers. simpl.
  repeat match goal with
         | |- context [contains ?m text] => destruct (contains m text)
         end; reflexivity.
Qed.

(** C1.  When the lowercased text of the most recent user message contains
    one of the six policy keywords and [policy_query] is not that message's
    text, the planner sets [next_action] to "search_policies" and leaves the
    world as it is: no prompt is sent to the model.  When [policy_query] is
    exactly that message's text, the keyword router declines whatever the
    message contains: the model is consulted and its reply decides. *)
Theorem planner_keyword_router (s : AgentState) (w : World) (m : Message) :
  last_of HumanMessage (get_messages s) = Some m ->
  ((exists kw, In kw ["refund"; "loan"; "privacy"; "ticket"; "escalation"; "policy"]
               /\ contains kw (lower (content m)) = true) ->
   policy_query s <> Some (content m) ->
   planner chat s w = (set_next_action "search_policies" s, w))
  /\
  (policy_query s = Some (content m) ->
   keyword_router s = false
   /\ model_calls (snd (planner chat s w))
      = model_calls w ++ [planner_system :: get_messages s]
   /\ next_action (fst (planner chat s w))
      = Some (parse_action
                (lower (chat (length (model_calls w))
                             (planner_system :: get_messages s))))).
Proof.
  intros Hm. split.
  - intros Hkw Hq. unfold planner, keyword_router. rewrite Hm.
    rewrite (already_searched_false _ _ Hq).
    assert (existsb (fun kw => contains kw (lower (content m))) policy_keywords
            = true) as ->; [| reflexivity].
    apply existsb_exists. destruct Hkw as (kw & Hin & Hc). eauto.
  - intros Hq.
    assert (keyword_router s = false) as Hr.
    { unfold keyword_router. rewrite Hm, (already_searched_true _ _ Hq).
      apply andb_false_r. }
    split; [exact Hr |]. rewrite (planner_model_based _ _ Hr). split; reflexivity.
Qed.

(** The order of the markers decides, not their place in the reply. *)
Example parse_action_order :
  parse_action (lower "Action: answer, or else Action: search_policies")
  = "search_policies".
Proof. reflexivity. Qed.

(** C6.  When the model is consulted, [next_action] becomes the action of
    the first of the four markers, taken in the order "action:
    search_policies", "action: update_profile", "action: ask_clarification",
    "action: answer", that occurs in the lowercased reply, and "answer" when
    none occurs. *)
Theorem planner_fallback_parser (s : AgentState) (w : World) :
  keyword_router s = false ->
  next_action (fst (planner chat s w))
  = Some (first_marker_found
            (lower (chat (length (model_calls w))
                         (planner_system :: get_messages s)))).
Proof.
  intros Hr. rewrite (planner_model_based _ _ Hr). simpl.
  now rewrite parse_action_first_marker.
Qed.

End PlannerFacts.

(* ===================================================================== *)
(** * The memory store                                                    *)
(* ===================================================================== *)

Section ProfileFacts.

Lemma dict_update_lookup (profile new_fields : gmap string json) k :
  dict_update profile new_fields !! k
  = match new_fields !! k with
    | Some v => Some v
    | None => profile !! k
    end.
Proof.
  unfold dict_update. rewrite lookup_union.
  destruct (new_fields !! k), (profile !! k); reflexivity.
Qed.

Lemma load_after_save user_id profile w w' :
  save_user_profile user_id profile w = Ok w' ->
  load_user_profile user_id w' = Ok profile.
Proof.
  unfold save_user_profile, load_user_profile.
  destruct (read_profiles w) as [[| | | | |d]|] eqn:E; simpl; try discriminate.
  destruct (writable w); [| discriminate].
  intros [= <-]. simpl. now rewrite lookup_insert_eq.
Qed.

Lemma save_succeeds user_id profile w v :
  writable w = true -> load_user_profile user_id w = Ok v ->
  exists w', save_user_profile user_id profile w = Ok w'.
Proof.
  unfold save_user_profile, load_user_profile. intros Hw.
  destruct (read_profiles w) as [[| | | | |d]|]; simpl; try discriminate.
  rewrite Hw. eauto.
Qed.

(** The update tool returns whenever the store can be read and written. *)
Lemma update_tool_returns user_id (fields old : gmap string json) w :
  writable w = true ->
  load_user_profile user_id w = Ok (JDict old) ->
  exists w',
    update_user_profile_tool user_id fields w
    = Ok (JDict (dict_update old fields), w')
    /\ load_user_profile user_id w' = Ok (JDict (dict_update old fields)).
Proof.
  intros Hw Hload.
  destruct (save_succeeds user_id (JDict (dict_update old fields)) w _ Hw Hload)
    as [w' Hsave].
  exists w'. split.
  - unfold update_user_profile_tool. rewrite Hload. simpl.
    rewrite Hsave. reflexivity.
  - eapply load_after_save, Hsave.
Qed.

(** C3.  When the stored profile of [user_id] is the mapping [old], the
    update tool returns the mapping that has the entries of [fields] and,
    for the other keys, those of [old]; the profile read back afterwards is
    that same mapping. *)
Theorem update_then_get_profile (user_id : string)
    (fields old : gmap string json) (w : World) :
  writable w = true ->
  get_user_profile_tool user_id w = Ok (JDict old) ->
  exists (merged : gmap string json) (w' : World),
    update_user_profile_tool user_id fields w = Ok (JDict merged, w')
    /\ get_user_profile_tool user_id w' = Ok (JDict merged)
    /\ forall k, merged !! k = match fields !! k with
                               | Some v => Some v
                               | None => old !! k
                               end.
Proof.
  unfold get_user_profile_tool. intros Hw Hload.
  destruct (update_tool_returns user_id fields old w Hw Hload)
    as (w' & Hupd & Hget).
  exists (dict_update old fields), w'.
  split; [exact Hupd |]. split; [exact Hget |]. apply dict_update_lookup.
Qed.



End ProfileFacts.

Section EpisodeFacts.

Lemma char_in_append c a b : char_in c (a +:+ b) = char_in c a || char_in c b.
Proof.
  induction a as [|x r IH]; [reflexivity |].
  rewrite append_cons. simpl. now rewrite IH, orb_assoc.
Qed.

Lemma escape_char_no_newline c : char_in newline (escape_char c) = false.
Proof. each_char c; reflexivity. Qed.

Lemma escape_no_newline s : char_in newline (escape s) = false.
Proof.
  induction s as [|c r IH]; [reflexivity |].
  simpl. now rewrite char_in_append, escape_char_no_newline, IH.
Qed.

Lemma dumps_string_no_newline s : char_in newline (dumps_string s) = false.
Proof.
  unfold dumps_string. simpl. now rewrite char_in_append, escape_no_newline.
Qed.

(** [json.dumps] writes a record on one line. *)
Lemma dumps_record_no_newline user_id summary :
  char_in newline (dumps_record user_id summary) = false.
Proof.
  unfold dumps_record.
  repeat (rewrite char_in_append || rewrite dumps_string_no_newline).
  reflexivity.
Qed.

Lemma scan_escape_char c tail :
  scan_string (escape_char c +:+ tail) = prepend c <$> scan_string tail.
Proof. each_char c; reflexivity. Qed.

Lemma scan_escape s rest :
  scan_string (escape s +:+ String dquote rest) = Some (s, rest).
Proof.
  induction s as [|c r IH]; [reflexivity |].
  simpl. now rewrite append_assoc, scan_escape_char, IH.
Qed.

Lemma read_dumps_string s rest :
  read_string (dumps_string s +:+ rest) = Some (s, rest).
Proof.
  unfold dumps_string. rewrite append_cons, append_assoc, append_cons.
  apply scan_escape.
Qed.

Lemma read_string_space s : read_string (String " " s) = read_string s.
Proof. reflexivity. Qed.

(** What [json.dumps] writes, [json.loads] reads back. *)
Lemma loads_dumps_record user_id summary :
  loads_record (dumps_record user_id summary) = Some (user_id, summary).
Proof.
  unfold loads_record, dumps_record.
  change (expect "{" ("{" +:+ ?x)) with (Some x). cbn [mbind option_bind].
  rewrite read_dumps_string. cbn [mbind option_bind].
  change (expect ":" (": " +:+ ?x)) with (Some (String " " x)).
  cbn [mbind option_bind].
  rewrite read_string_space, read_dumps_string. cbn [mbind option_bind].
  change (expect "," (", " +:+ ?x)) with (Some (String " " x)).
  cbn [mbind option_bind].
  rewrite read_string_space, read_dumps_string. cbn [mbind option_bind].
  change (expect ":" (": " +:+ ?x)) with (Some (String " " x)).
  cbn [mbind option_bind].
  rewrite read_string_space, read_dumps_string. cbn [mbind option_bind].
  reflexivity.
Qed.

Lemma lines_line l rest :
  char_in newline l = false ->
  lines (l +:+ String newline rest) = l :: lines rest.
Proof.
  induction l as [|c r IH]; [reflexivity |].
  intros H. cbn [char_in] in H. apply orb_false_iff in H as [H1 H2].
  rewrite append_cons. cbn [lines].
  rewrite (Ascii.eqb_sym c newline), H1, (IH H2). reflexivity.
Qed.

Lemma lines_nonempty c r : lines (String c r) <> [].
Proof.
  simpl. destruct (Ascii.eqb c newline); [discriminate |].
  destruct (lines r); discriminate.
Qed.

Lemma lines_append a b :
  complete a = true -> lines (a +:+ b) = lines a ++ lines b.
Proof.
  induction a as [|c r IH]; [reflexivity |].
  intros H. rewrite append_cons.
  assert (complete r = true) as Hr by (destruct r; [reflexivity | exact H]).
  cbn [lines]. rewrite (IH Hr).
  destruct (Ascii.eqb c newline) eqn:E; [reflexivity |].
  destruct r as [|d r']; [simpl in H; congruence |].
  pose proof (lines_nonempty d r') as Hne.
  destruct (lines (String d r')); [contradiction | reflexivity].
Qed.

Lemma episode_lines_lines calls :
  lines (episode_lines calls)
  = List.map (fun c => dumps_record (fst c) (snd c)) calls.
Proof.
  induction calls as [|[u s] rest IH]; [reflexivity |].
  simpl. now rewrite lines_line, IH by apply dumps_record_no_newline.
Qed.

Lemma append_episodes_text calls w :
  writable w = true ->
  exists w', append_episodes calls w = Ok w'
             /\ writable w' = true
             /\ episodes_text w' = episodes_text w +:+ episode_lines calls.
Proof.
  revert w. induction calls as [|[u s] rest IH]; intros w Hw.
  - exists w. simpl. now rewrite append_empty_r.
  - simpl. unfold append_episode at 1. rewrite Hw. simpl.
    match goal with |- context [append_episodes rest ?x] => set (w1 := x) end.
    destruct (IH w1 Hw) as (w' & Happ & Hw' & Htext).
    exists w'. split; [exact Happ |]. split; [exact Hw' |].
    rewrite Htext. unfold w1, episodes_text at 1. simpl.
    now rewrite !append_assoc.
Qed.

Lemma complete_append a b :
  complete a = true -> complete b = true -> complete (a +:+ b) = true.
Proof.
  intros Ha Hb. induction a as [|c r IH]; [exact Hb |].
  rewrite append_cons.
  assert (complete r = true) as Hr by (destruct r; [reflexivity | exact Ha]).
  specialize (IH Hr). destruct r as [|d r'].
  - rewrite append_empty_l in *. destruct b; [exact Ha | exact IH].
  - exact IH.
Qed.

Lemma complete_line l rest :
  complete rest = true -> complete (l +:+ String newline rest) = true.
Proof.
  intros H. induction l as [|c r IH].
  - rewrite append_empty_l. destruct rest; [reflexivity | exact H].
  - rewrite append_cons. destruct r; exact IH.
Qed.

Lemma episode_lines_complete calls : complete (episode_lines calls) = true.
Proof.
  induction calls as [|[u s] rest IH]; [reflexivity |]. now apply complete_line.
Qed.

(** C8.  In a world that accepts writes, a sequence of N appends returns
    and leaves the log as it was followed by N lines; line i reads back as
    the object of the arguments of call i; and on a log whose last line was
    complete, as every log written by the appends is, the lines of the log
    are the earlier lines, unchanged, followed by the N new ones. *)
Theorem append_episode_log (calls : list (string * string)) (w : World) :
  writable w = true ->
  exists (w' : World) (added : string),
    append_episodes calls w = Ok w'
    /\ episodes_text w' = episodes_text w +:+ added
    /\ length (lines added) = length calls
    /\ Forall2 (fun line call => loads_record line = Some call)
               (lines added) calls
    /\ (complete (episodes_text w) = true ->
        lines (episodes_text w') = lines (episodes_text w) ++ lines added
        /\ complete (episodes_text w') = true).
Proof.
  intros Hw. destruct (append_episodes_text calls w Hw) as (w' & Ha & _ & Ht).
  exists w', (episode_lines calls). rewrite Ht, episode_lines_lines.
  split; [exact Ha |]. split; [reflexivity |]. split; [apply length_map |].
  split.
  - clear. induction calls as [|[u s] rest IH]; constructor; [| exact IH].
    apply loads_dumps_record.
  - intros Hc. split.
    + now rewrite lines_append, episode_lines_lines.
    + apply complete_append; [exact Hc | apply episode_lines_complete].
Qed.

End EpisodeFacts.

(* ===================================================================== *)
(** * The policy search                                                   *)
(* ===================================================================== *)

Section SearchFacts.

Lemma contains_empty s : contains EmptyString s = true.
Proof. destruct s; reflexivity. Qed.

Lemma punct_lower_char c : is_punct c = true -> lower_char c = c.
Proof. each_char c; try discriminate; reflexivity. Qed.

Lemma all_punct_lower w : all_chars is_punct w = true -> lower w = w.
Proof.
  induction w as [|c r IH]; [reflexivity |].
  simpl. intros [Hc Hr]%andb_true_iff.
  now rewrite (punct_lower_char _ Hc), (IH Hr).
Qed.

Lemma lstrip_all p w : all_chars p w = true -> lstrip_with p w = EmptyString.
Proof.
  induction w as [|c r IH]; [reflexivity |].
  simpl. intros [Hc Hr]%andb_true_iff. now rewrite Hc, (IH Hr).
Qed.

Lemma strip_all_punct w :
  all_chars is_punct w = true -> strip_chars ".,?!" w = EmptyString.
Proof.
  intros H. unfold strip_chars, strip_with.
  now rewrite (lstrip_all (fun c => char_in c ".,?!") w H).
Qed.

(** The words of the normalized query are the lowercased words of the
    query. *)
Lemma split_normalized query :
  split (lower (strip query)) = List.map lower (split query).
Proof. now rewrite lower_strip, split_strip, split_lower. Qed.

Lemma in_extract_keywords q w :
  In w (split q) -> 3 < len w -> In (strip_chars ".,?!" w) (extract_keywords q).
Proof.
  intros Hin Hlen. unfold extract_keywords.
  assert (In (strip_chars ".,?!" w)
             (List.map (strip_chars ".,?!")
                       (List.filter (fun w => 3 <? len w) (split q)))) as H.
  { apply in_map, filter_In. split; [exact Hin |]. now apply Nat.ltb_lt. }
  destruct (List.map _ _); [destruct H | exact H].
Qed.

(** Where the keywords of the code come from. *)
Lemma extract_keywords_cases q kw :
  In kw (extract_keywords q) ->
  (exists w, In w (split q) /\ 3 < len w /\ kw = strip_chars ".,?!" w)
  \/ ((forall w, In w (split q) -> len w <= 3) /\ kw = q).
Proof.
  unfold extract_keywords.
  destruct (List.map _ _) as [|k ks] eqn:E.
  - intros [<-|[]]. right. split; [| reflexivity].
    apply map_eq_nil in E. intros w Hw.
    destruct (Nat.ltb_spec 3 (len w)) as [Hlt|]; [| lia].
    assert (In w (List.filter (fun w => 3 <? len w) (split q))) as Hf.
    { apply filter_In. split; [exact Hw |]. now apply Nat.ltb_lt. }
    rewrite E in Hf. destruct Hf.
  - rewrite <- E. intros (w & <- & Hf)%in_map_iff. left.
    apply filter_In in Hf as [Hw Hl]. apply Nat.ltb_lt in Hl. eauto.
Qed.

(** Every document of the result was made from a readable file that
    matches, whatever the limit. *)
Lemma scan_files_sound keywords top_k files docs res doc :
  scan_files keywords top_k files docs = Ok res ->
  In doc res ->
  In doc docs
  \/ (In (source doc, Ok (page_content doc)) files
      /\ matches keywords (page_content doc) = true).
Proof.
  revert docs. induction files as [|[path [text|e]] rest IH]; intros docs;
    simpl.
  - intros [= <-]. auto.
  - assert (In doc (if matches keywords text
                    then docs ++ [make_document path text] else docs) ->
            In doc docs
            \/ (make_document path text = doc
                /\ matches keywords text = true)) as Hstep.
    { destruct (matches keywords text); [| auto].
      intros [H|[H|[]]]%in_app_or; auto. }
    destruct (top_k <=? _)%Z.
    + intros [= <-] H. apply Hstep in H as [H|[<- Hm]]; [auto |].
      right. simpl. auto.
    + intros Hres H. destruct (IH _ Hres H) as [H'|[H1 H2]];
        [| now right; auto].
      apply Hstep in H' as [H'|[<- Hm]]; [auto |]. right. simpl. auto.
  - destruct e; try discriminate.
    intros Hres H. destruct (IH _ Hres H) as [H'|[H1 H2]]; auto.
Qed.

Lemma scan_files_length keywords top_k files docs res :
  (Z.of_nat (length docs) < top_k)%Z ->
  scan_files keywords top_k files docs = Ok res ->
  (Z.of_nat (length res) <= top_k)%Z.
Proof.
  revert docs. induction files as [|[path [text|e]] rest IH]; intros docs Hlt;
    simpl.
  - intros [= <-]. lia.
  - set (docs' := if matches keywords text
                  then docs ++ [make_document path text] else docs).
    assert (Z.of_nat (length docs') <= top_k)%Z as Hle.
    { unfold docs'. destruct (matches keywords text); [| lia].
      rewrite length_app. simpl. lia. }
    destruct (Z.leb_spec top_k (Z.of_nat (length docs')));
      [now intros [= <-] |].
    now apply IH.
  - destruct e; try discriminate. now apply IH.
Qed.

(** The scan returns when no read raises anything but OSError. *)
Lemma scan_files_returns keywords top_k files docs :
  no_fatal_read files ->
  exists res, scan_files keywords top_k files docs = Ok res.
Proof.
  revert docs. induction files as [|[path [text|e]] rest IH]; intros docs Hok;
    simpl.
  - eauto.
  - destruct (top_k <=? _)%Z; [eauto |].
    apply IH. intros p e Hin. apply (Hok p e). now right.
  - rewrite (Hok path e) by now left.
    apply IH. intros p e' Hin. apply (Hok p e'). now right.
Qed.

(** A scan with a smaller limit stops no later: it returns when the scan
    with the larger limit does. *)
Lemma scan_files_smaller_limit keywords k k' files docs res' :
  (k <= k')%Z ->
  scan_files keywords k' files docs = Ok res' ->
  exists res, scan_files keywords k files docs = Ok res.
Proof.
  intros Hk. revert docs.
  induction files as [|[path [text|e]] rest IH]; intros docs; simpl.
  - eauto.
  - destruct (matches keywords text);
      match goal with
      | |- context [(k <=? ?n)%Z] =>
          destruct (Z.leb_spec k n); [eauto |];
          destruct (Z.leb_spec k' n); [lia | apply IH]
      end.
  - destruct e; try discriminate. apply IH.
Qed.

Lemma search_policies_returns query top_k w :
  no_fatal_read (policy_files w) ->
  exists docs, search_policies query top_k w = Ok docs.
Proof.
  intros Hok. unfold search_policies.
  destruct (is_empty (lower (strip query))); [eauto |].
  now apply scan_files_returns.
Qed.

(** With a keyword that every text contains, a scan that returns has taken
    the readable files as they come until the limit was reached. *)
Lemma scan_files_all keywords top_k files docs res :
  (forall text, matches keywords text = true) ->
  (Z.of_nat (length docs) < top_k)%Z ->
  scan_files keywords top_k files docs = Ok res ->
  res = docs ++ firstn (Z.to_nat top_k - length docs) (readable_documents files).
Proof.
  intros Hall. revert docs.
  induction files as [|[path [text|e]] rest IH]; intros docs Hlt; simpl.
  - intros [= <-]. now rewrite firstn_nil, app_nil_r.
  - rewrite Hall, length_app. simpl.
    replace (Z.to_nat top_k - length docs)
      with (S (Z.to_nat top_k - (length docs + 1))) by lia.
    simpl. destruct (Z.leb_spec top_k (Z.of_nat (length docs + 1))).
    + replace (Z.to_nat top_k - (length docs + 1)) with 0 by lia.
      now intros [= <-].
    + intros Hres. apply IH in Hres; [| rewrite length_app; simpl; lia].
      rewrite Hres, length_app, <- app_assoc. reflexivity.
  - destruct e; try discriminate. now apply IH.
Qed.

(** On a query with a word of more than 3 characters, all of them among
    [.,?!], the empty string is a keyword and every readable file matches; a
    search with a limit of at least one that returns gives the first
    readable files up to the limit, and it returns when no read raises
    anything but OSError. *)
Lemma search_policies_empty_keyword query top_k w word :
  In word (split query) -> 3 < len word -> all_chars is_punct word = true ->
  In EmptyString (extract_keywords (lower (strip query)))
  /\ (forall text, matches (extract_keywords (lower (strip query))) text = true)
  /\ ((1 <= top_k)%Z ->
      (forall docs,
         search_policies query top_k w = Ok docs ->
         docs = firstn (Z.to_nat top_k) (readable_documents (policy_files w)))
      /\ (no_fatal_read (policy_files w) ->
          search_policies query top_k w
          = Ok (firstn (Z.to_nat top_k)
                  (readable_documents (policy_files w))))).
Proof.
  intros Hin Hlen Hp.
  assert (In EmptyString (extract_keywords (lower (strip query)))) as Hkw.
  { rewrite <- (strip_all_punct word Hp). apply in_extract_keywords; [| exact Hlen].
    rewrite split_normalized, <- (all_punct_lower word Hp). now apply in_map. }
  assert (forall text,
            matches (extract_keywords (lower (strip query))) text = true) as Hall.
  { intros text. apply existsb_exists. exists EmptyString.
    split; [exact Hkw | apply contains_empty]. }
  split; [exact Hkw |]. split; [exact Hall |]. intros Hk.
  assert (forall docs,
            search_policies query top_k w = Ok docs ->
            docs = firstn (Z.to_nat top_k)
                     (readable_documents (policy_files w))) as Hcond.
  { intros docs. unfold search_policies.
    destruct (is_empty (lower (strip query))) eqn:E.
    - apply is_empty_true in E.
      pose proof (split_normalized query) as Hs. rewrite E in Hs.
      symmetry in Hs. apply map_eq_nil in Hs. rewrite Hs in Hin. destruct Hin.
    - intros Hres. apply scan_files_all in Hres; [| exact Hall | simpl; lia].
      simpl in Hres. now rewrite Nat.sub_0_r in Hres. }
  split; [exact Hcond |]. intros Hok.
  destruct (search_policies query top_k w) as [docs|e] eqn:E.
  - now rewrite (Hcond docs eq_refl).
  - unfold search_policies in E.
    destruct (is_empty (lower (strip query))); [discriminate |].
    destruct (scan_files_returns
                (extract_keywords (lower (strip query))) top_k
                (policy_files w) [] Hok) as [res Hres].
    rewrite Hres in E. discriminate.
Qed.

End SearchFacts.

Section SearchClaims.

(** C4, as the code has it.  An empty or all-blank query gives no
    document.  Otherwise every returned document is the raw text of a
    policy file whose lowercased text contains a keyword of the normalized
    query: a word longer than 3 characters with its leading and trailing
    [.,?!] stripped, or the whole normalized query when no word is longer
    than 3.  With a limit of at least one the result is no longer than the
    limit, and with the default limit no longer than 3.  The search returns
    when no read of a policy file raises anything but OSError. *)
Theorem search_policies_sound (query : string) (top_k : Z) (w : World) :
  (is_empty (strip query) = true -> search_policies query top_k w = Ok [])
  /\ (forall docs doc,
        search_policies query top_k w = Ok docs ->
        In doc docs ->
        In (source doc, Ok (page_content doc)) (policy_files w)
        /\ ((exists word,
               In word (split (lower (strip query))) /\ 3 < len word
               /\ contains (strip_chars ".,?!" word)
                           (lower (page_content doc)) = true)
            \/ ((forall word,
                   In word (split (lower (strip query))) -> len word <= 3)
                /\ contains (lower (strip query))
                            (lower (page_content doc)) = true)))
  /\ ((1 <= top_k)%Z ->
      forall docs,
        search_policies query top_k w = Ok docs ->
        (Z.of_nat (length docs) <= top_k)%Z)
  /\ (forall docs,
        search_policies query default_top_k w = Ok docs -> length docs <= 3)
  /\ (no_fatal_read (policy_files w) ->
      exists docs, search_policies query top_k w = Ok docs).
Proof.
  assert (forall k docs, (1 <= k)%Z ->
            search_policies query k w = Ok docs ->
            (Z.of_nat (length docs) <= k)%Z) as Hlen.
  { intros k docs Hk. unfold search_policies.
    destruct (is_empty (lower (strip query)));
      [intros [= <-]; simpl; lia |].
    apply scan_files_length. simpl. lia. }
  split; [| split; [| split; [| split]]].
  - intros H. unfold search_policies. now rewrite is_empty_lower, H.
  - intros docs doc. unfold search_policies.
    destruct (is_empty (lower (strip query))); [intros [= <-] [] |].
    intros Hres Hin.
    destruct (scan_files_sound _ _ _ _ _ _ Hres Hin) as [[]|[Hfile Hm]].
    split; [exact Hfile |].
    apply existsb_exists in Hm as (kw & Hkw & Hc).
    apply extract_keywords_cases in Hkw as [(word & H1 & H2 & ->)|[H ->]].
    + left. eauto.
    + right. auto.
  - intros Hk docs. now apply Hlen.
  - intros docs H. apply Hlen in H; unfold default_top_k in *; lia.
  - apply search_policies_returns.
Qed.

(** C4 as stated fails twice.  The word "...also" gives the keyword "also",
    not "...also": a file is returned that contains none of the keywords
    with only the trailing punctuation stripped.  And a limit of 0 still
    lets one document through. *)
Lemma search_policies_claim_fails :
  (exists doc,
     search_policies "...also refunds" 3
       (world_with_policies
          [("policies/shipping.txt", Ok "We also ship abroad.")])
     = Ok [doc]
     /\ forallb (fun kw => negb (contains kw (lower (page_content doc))))
                (spec_keywords "...also refunds") = true)
  /\ (exists docs,
        search_policies "refund" 0
          (world_with_policies
             [("policies/refund.txt", Ok "Refunds take 30 days.")])
        = Ok docs
        /\ (0 < Z.of_nat (length docs))%Z).
Proof.
  split.
  - exists (make_document "policies/shipping.txt" "We also ship abroad.").
    split; reflexivity.
  - eexists. split; [reflexivity |]. simpl. lia.
Qed.

(** C10 at a limit of 0.  The query "????" has the empty keyword, which the
    one readable file matches; the code returns that file, where the first
    0 files are none. *)
Theorem search_policies_limit_zero :
  In EmptyString (extract_keywords (lower (strip "????")))
  /\ search_policies "????" 0
       (world_with_policies
          [("policies/refund.txt", Ok "Refunds take 30 days.")])
     = Ok [make_document "policies/refund.txt" "Refunds take 30 days."]
  /\ firstn (Z.to_nat 0)
       (readable_documents
          [("policies/refund.txt", Ok "Refunds take 30 days.")])
     = [].
Proof. split; [left; reflexivity | split; reflexivity]. Qed.

End SearchClaims.

(* ===================================================================== *)
(** * The nodes and the graph                                             *)
(* ===================================================================== *)

Section GraphFacts.

Variable chat : nat -> list Message -> string.
Variable py_str : json -> string.

Lemma get_messages_append m s :
  get_messages (append_message m s) = get_messages s ++ [m].
Proof. reflexivity. Qed.

Lemma get_messages_setdefaults s :
  get_messages
    (setdefault_done (setdefault_tool_results (setdefault_retrieved_policies s)))
  = get_messages s.
Proof.
  unfold setdefault_done, setdefault_tool_results,
    setdefault_retrieved_policies.
  destruct (retrieved_policies s); simpl;
    destruct (tool_results s); simpl; destruct (done s); reflexivity.
Qed.

Lemma get_messages_setdefault_tool_results s :
  get_messages (setdefault_tool_results s) = get_messages s.
Proof. unfold setdefault_tool_results. now destruct (tool_results s). Qed.

Lemma ingest_user_messages s w s' w' :
  ingest_user s w = Ok (s', w') -> get_messages s' = get_messages s /\ w' = w.
Proof.
  unfold ingest_user.
  destruct (user_id s) as [uid|], (user_profile s) as [p|]; simpl;
    try (intros [= <- <-]; split; [apply get_messages_setdefaults | reflexivity]).
  destruct (is_empty uid); simpl;
    try (intros [= <- <-]; split; [apply get_messages_setdefaults | reflexivity]).
  destruct (get_user_profile_tool uid w); simpl; [| discriminate].
  intros [= <- <-]. split; [| reflexivity].
  now rewrite get_messages_setdefaults.
Qed.

Lemma planner_messages s w :
  get_messages (fst (planner chat s w)) = get_messages s
  \/ exists reply,
       get_messages (fst (planner chat s w))
       = get_messages s ++ [ai_message reply].
Proof.
  unfold planner. destruct (keyword_router s); simpl; [now left |].
  right. eauto.
Qed.

Lemma run_tools_messages s w s' w' :
  run_tools s w = Ok (s', w') -> get_messages s' = get_messages s.
Proof.
  unfold run_tools. destruct (user_id s) as [uid|]; [| discriminate].
  destruct (String.eqb _ "search_policies"); simpl.
  { destruct (search_policies _ _ _) as [hits|]; simpl; [| discriminate].
    intros [= <- <-]. now rewrite get_messages_setdefault_tool_results. }
  destruct (String.eqb _ "update_profile"); simpl.
  2: { intros [= <- <-]. now rewrite get_messages_setdefault_tool_results. }
  destruct (decide _); simpl.
  { intros [= <- <-]. now rewrite get_messages_setdefault_tool_results. }
  destruct (update_user_profile_tool _ _ _) as [[p w1]|]; simpl;
    [| discriminate].
  intros [= <- <-]. now rewrite get_messages_setdefault_tool_results.
Qed.

Lemma answer_complete s w : turn_complete s (fst (answer chat py_str s w)).
Proof.
  unfold answer, turn_complete. simpl. split; [reflexivity |].
  eexists. split; [reflexivity |]. constructor. reflexivity.
Qed.

Lemma log_episode_node_state s w s' w' :
  log_episode_node s w = Ok (s', w') -> s' = s.
Proof.
  unfold log_episode_node. destruct (last_of AIMessage _); simpl.
  - destruct (append_episode _ _ _); simpl; [| discriminate]. now intros [= <- <-].
  - now intros [= <- <-].
Qed.

Lemma messages_grow_refl s : messages_grow s s.
Proof. unfold messages_grow. reflexivity. Qed.

Lemma messages_grow_eq s s' :
  get_messages s' = get_messages s -> messages_grow s s'.
Proof. unfold messages_grow. now intros ->. Qed.

Lemma messages_grow_trans s1 s2 s3 :
  messages_grow s1 s2 -> messages_grow s2 s3 -> messages_grow s1 s3.
Proof. unfold messages_grow. apply transitivity. Qed.

Lemma turn_complete_grow s s' : turn_complete s s' -> messages_grow s s'.
Proof. intros (_ & added & H & _). now exists added. Qed.

Lemma turn_complete_after s1 s2 s3 :
  messages_grow s1 s2 -> turn_complete s2 s3 -> turn_complete s1 s3.
Proof.
  intros [k Hk] (Hd & added & Hm & Hex). split; [exact Hd |].
  exists (k ++ added). rewrite Hm, Hk, <- app_assoc. split; [reflexivity |].
  apply Exists_app. now right.
Qed.

(** One step of the graph never shortens or rewrites the conversation. *)
Lemma step_messages n s w n' s' w' :
  step chat py_str n s w = Ok (n', s', w') -> messages_grow s s'.
Proof.
  destruct n; simpl.
  - destruct (ingest_user s w) as [[s1 w1]|] eqn:E; simpl; [| discriminate].
    intros [= <- <- <-]. now apply messages_grow_eq, (ingest_user_messages _ _ _ _ E).
  - pose proof (planner_messages s w) as H.
    destruct (planner chat s w) as [s1 w1]. simpl in H.
    destruct (next_action s1) as [a|]; [| discriminate].
    destruct (conditional_edge a); [| discriminate].
    intros [= <- <- <-]. destruct H as [H|[reply H]].
    + now apply messages_grow_eq.
    + unfold messages_grow. rewrite H. now eexists.
  - destruct (run_tools s w) as [[s1 w1]|] eqn:E; simpl; [| discriminate].
    intros [= <- <- <-]. now apply messages_grow_eq, (run_tools_messages _ _ _ _ E).
  - intros [= <- <- <-]. apply turn_complete_grow, (answer_complete s w).
  - destruct (log_episode_node s w) as [[s1 w1]|] eqn:E; simpl; [| discriminate].
    intros [= <- <- <-]. apply log_episode_node_state in E as ->.
    apply messages_grow_refl.
  - intros [= <- <- <-]. apply messages_grow_refl.
Qed.

Lemma run_unfold limit n s w :
  n <> END ->
  run chat py_str (S limit) n s w
  = ('(n', s1, w1) ← step chat py_str n s w; run chat py_str limit n' s1 w1).
Proof. destruct n; [reflexivity .. | contradiction]. Qed.

Lemma run_messages limit n s w s' w' :
  run chat py_str limit n s w = Ok (s', w') -> messages_grow s s'.
Proof.
  revert n s w. induction limit as [|limit IH]; intros n s w; [discriminate |].
  assert (n = END \/ n <> END) as [->|Hend]
    by (destruct n; auto; right; discriminate).
  - intros [= <- <-]. apply messages_grow_refl.
  - rewrite (run_unfold _ _ _ _ Hend).
    destruct (step chat py_str n s w) as [[[n' s1] w1]|] eqn:E; simpl;
      [| discriminate].
    intros H. eapply messages_grow_trans; [eapply step_messages, E |].
    eapply IH, H.
Qed.

Lemma run_from_log limit s w s' w' :
  run chat py_str limit N_log_episode s w = Ok (s', w') -> s' = s.
Proof.
  destruct limit as [|limit]; [discriminate |].
  rewrite run_unfold by discriminate. cbn [step].
  destruct (log_episode_node s w) as [[s1 w1]|] eqn:E; simpl; [| discriminate].
  apply log_episode_node_state in E as ->.
  destruct limit; simpl; [discriminate |]. now intros [= <- <-].
Qed.

(** The edges out of the first three nodes lead to the planner, the tools
    or the answer. *)
Lemma step_target n s w n' s1 w1 :
  step chat py_str n s w = Ok (n', s1, w1) ->
  n <> N_answer -> n <> N_log_episode -> n <> END ->
  n' <> N_log_episode /\ n' <> END.
Proof.
  intros Hstep Ha Hl He. destruct n; try contradiction; simpl in Hstep.
  - destruct (ingest_user s w) as [[? ?]|]; simpl in Hstep; [| discriminate].
    injection Hstep as <- _ _. split; discriminate.
  - destruct (planner chat s w) as [s2 w2].
    destruct (next_action s2) as [a|]; [| discriminate].
    unfold conditional_edge in Hstep.
    repeat match type of Hstep with
           | context [String.eqb a ?x] => destruct (String.eqb a x)
           end; try discriminate;
      injection Hstep as <- _ _; split; discriminate.
  - destruct (run_tools s w) as [[? ?]|]; simpl in Hstep; [| discriminate].
    injection Hstep as <- _ _. split; discriminate.
Qed.

(** Every run that ends, from any node before the log, has gone through
    the answer node. *)
Lemma run_complete limit n s w s' w' :
  n <> N_log_episode -> n <> END ->
  run chat py_str limit n s w = Ok (s', w') -> turn_complete s s'.
Proof.
  revert n s w. induction limit as [|limit IH]; intros n s w Hlog Hend;
    [discriminate |].
  rewrite (run_unfold _ _ _ _ Hend).
  destruct (step chat py_str n s w) as [[[n' s1] w1]|] eqn:Hstep; simpl;
    [| discriminate].
  intros Hrun.
  assert (n = N_answer \/ n <> N_answer) as [->|Hans]
    by (destruct n; auto; right; discriminate).
  - injection Hstep as <- <- <-. apply run_from_log in Hrun as ->.
    apply (answer_complete s w).
  - destruct (step_target _ _ _ _ _ _ Hstep Hans Hlog Hend) as [H1 H2].
    eapply turn_complete_after; [eapply step_messages, Hstep |].
    eapply IH; eassumption.
Qed.

Lemma last_of_snoc r msgs m :
  isinstance m r = true -> last_of r (msgs ++ [m]) = Some m.
Proof.
  intros H. unfold last_of. rewrite rev_unit. simpl. now rewrite H.
Qed.

(** The two last nodes: the model's reply to the answer prompt is appended
    and logged. *)
Lemma run_from_answer_inv limit s w s' w' :
  run chat py_str limit N_answer s w = Ok (s', w') ->
  exists reply,
    reply = chat (length (model_calls w))
              (answer_system :: answer_context py_str s :: get_messages s)
    /\ s' = set_done true (append_message (ai_message reply) s)
    /\ writable w = true
    /\ w' = set_episodes_file
              (episodes_text w
                 +:+ dumps_record (default "unknown-user" (user_id s)) reply
                 +:+ String newline EmptyString)
              (log_model_call
                 (answer_system :: answer_context py_str s :: get_messages s) w).
Proof.
  destruct limit as [|limit]; [discriminate |].
  rewrite run_unfold by discriminate. cbn [step answer call_llm].
  cbn [mbind result_bind]. destruct limit as [|limit]; [discriminate |].
  rewrite run_unfold by discriminate. cbn [step]. unfold log_episode_node.
  change (get_messages (set_done true (append_message ?m s)))
    with (get_messages s ++ [m]).
  rewrite last_of_snoc by reflexivity. unfold append_episode. simpl.
  destruct (writable w) eqn:Hw; simpl; [| discriminate].
  destruct limit; simpl; [discriminate |].
  intros [= <- <-]; eexists; repeat split.
Qed.

Lemma run_tools_model_calls s w s' w' :
  run_tools s w = Ok (s', w') -> model_calls w' = model_calls w.
Proof.
  unfold run_tools. destruct (user_id s) as [uid|]; [| discriminate].
  destruct (String.eqb _ "search_policies"); simpl.
  { destruct (search_policies _ _ _) as [hits|]; simpl; [| discriminate].
    now intros [= <- <-]. }
  destruct (String.eqb _ "update_profile"); simpl; [| now intros [= <- <-]].
  destruct (decide _); simpl; [now intros [= <- <-] |].
  unfold update_user_profile_tool.
  destruct (load_user_profile uid w) as [profile|]; simpl; [| discriminate].
  destruct profile; simpl; try discriminate.
  unfold save_user_profile.
  destruct (read_profiles w) as [profiles|]; simpl; [| discriminate].
  destruct profiles; simpl; try discriminate.
  destruct (writable w); simpl; [| discriminate].
  now intros [= <- <-].
Qed.

(** What a step from one of the first three nodes adds: nothing, or the
    reply of the model to the planner's prompt. *)
Lemma step_added n s w n' s1 w1 :
  step chat py_str n s w = Ok (n', s1, w1) ->
  n <> N_answer -> n <> N_log_episode -> n <> END ->
  (get_messages s1 = get_messages s /\ model_calls w1 = model_calls w)
  \/ (get_messages s1
      = get_messages s
          ++ [ai_message (chat (length (model_calls w))
                            (planner_system :: get_messages s))]
      /\ model_calls w1 = model_calls w ++ [planner_system :: get_messages s]).
Proof.
  intros Hstep Ha Hl He. destruct n; try contradiction; simpl in Hstep.
  - destruct (ingest_user s w) as [[s2 w2]|] eqn:E; simpl in Hstep;
      [| discriminate].
    injection Hstep as _ <- <-. left.
    destruct (ingest_user_messages _ _ _ _ E) as [H ->]. now split.
  - destruct (keyword_router s) eqn:Hr.
    + unfold planner in Hstep. rewrite Hr in Hstep.
      cbn [next_action set_next_action] in Hstep.
      change (conditional_edge "search_policies") with (Some N_run_tools)
        in Hstep.
      injection Hstep as _ <- <-. left. now split.
    + rewrite (planner_model_based chat s w Hr) in Hstep.
      cbn [next_action set_next_action] in Hstep.
      destruct (conditional_edge _); [| discriminate].
      injection Hstep as _ <- <-. right. now split.
  - destruct (run_tools s w) as [[s2 w2]|] eqn:E; simpl in Hstep;
      [| discriminate].
    injection Hstep as _ <- <-. left.
    split; [apply (run_tools_messages _ _ _ _ E) |
            apply (run_tools_model_calls _ _ _ _ E)].
Qed.

(** Every run that ends has reached the answer node in some state [s_a]
    and world [w_a], after planning replies only, and has ended with the
    model's reply to the answer prompt built from [s_a]. *)
Lemma run_answered limit n s w s' w' :
  run chat py_str limit n s w = Ok (s', w') ->
  n <> N_log_episode -> n <> END ->
  exists s_a w_a planning,
    get_messages s_a = get_messages s ++ planning
    /\ planning_replies chat (length (model_calls w)) (get_messages s) planning
    /\ model_calls w_a
       = model_calls w ++ planner_prompts (get_messages s) planning
    /\ s' = set_done true
              (append_message
                 (ai_message
                    (chat (length (model_calls w_a))
                       (answer_system :: answer_context py_str s_a
                          :: get_messages s_a))) s_a)
    /\ model_calls w'
       = model_calls w_a
           ++ [answer_system :: answer_context py_str s_a :: get_messages s_a].
Proof.
  revert n s w. induction limit as [|limit IH]; intros n s w Hrun Hlog Hend;
    [discriminate |].
  assert (n = N_answer \/ n <> N_answer) as [->|Hna]
    by (destruct n; auto; right; discriminate).
  - apply run_from_answer_inv in Hrun as (reply & -> & -> & _ & ->).
    exists s, w, []. rewrite !app_nil_r. repeat split.
  - rewrite (run_unfold _ _ _ _ Hend) in Hrun.
    destruct (step chat py_str n s w) as [[[n' s1] w1]|] eqn:Hstep;
      simpl in Hrun; [| discriminate].
    destruct (step_target _ _ _ _ _ _ Hstep Hna Hlog Hend) as [T1 T2].
    destruct (IH _ _ _ Hrun T1 T2)
      as (s_a & w_a & planning & Hm & Hp & Hw & Hs & Hc).
    destruct (step_added _ _ _ _ _ _ Hstep Hna Hlog Hend)
      as [[Hadd Hcalls]|[Hadd Hcalls]].
    + exists s_a, w_a, planning. rewrite Hadd, Hcalls in *. auto.
    + exists s_a, w_a,
        (ai_message (chat (length (model_calls w))
                       (planner_system :: get_messages s)) :: planning).
      rewrite Hadd, Hcalls, <- ?app_assoc in *.
      rewrite length_app, Nat.add_1_r in Hp.
      split; [exact Hm |]. split; [split; [reflexivity | exact Hp] |].
      split; [exact Hw |]. split; assumption.
Qed.

Lemma planning_replies_roles chat' k msgs planning :
  planning_replies chat' k msgs planning ->
  Forall (fun m => role m = AIMessage) planning.
Proof.
  revert k msgs. induction planning as [|m rest IH]; intros k msgs;
    [constructor |].
  intros [-> H]. constructor; [reflexivity | exact (IH _ _ H)].
Qed.

(** C2.  An invocation of the graph that reaches END returns a state with
    [done] true whose messages are those it was given followed by new
    ones, at least one of them an assistant message.  The last of them is
    the reply of the model to the prompt of the answer node: the run has
    reached that node in a state [s_a] whose messages are those it was given
    followed by the replies of the planning steps that asked the model,
    each the model's reply to the planner's prompt over the conversation so
    far; the returned state is [s_a] with the model's reply to
    [answer_system], the context of [s_a] and the messages of [s_a]
    appended and [done] set, and that prompt is the last one sent, after
    the planner's. *)
Theorem invoke_turn_complete (limit : nat) (s s' : AgentState) (w w' : World) :
  invoke chat py_str limit s w = Ok (s', w') ->
  done s' = Some true
  /\ (exists added,
        get_messages s' = get_messages s ++ added
        /\ Exists (fun m => role m = AIMessage) added)
  /\ exists s_a w_a planning,
       get_messages s_a = get_messages s ++ planning
       /\ planning_replies chat (length (model_calls w)) (get_messages s)
            planning
       /\ model_calls w_a
          = model_calls w ++ planner_prompts (get_messages s) planning
       /\ s' = set_done true
                 (append_message
                    (ai_message
                       (chat (length (model_calls w_a))
                          (answer_system :: answer_context py_str s_a
                             :: get_messages s_a))) s_a)
       /\ model_calls w'
          = model_calls w_a
              ++ [answer_system :: answer_context py_str s_a
                    :: get_messages s_a].
Proof.
  unfold invoke. intros H.
  assert (N_ingest_user <> N_log_episode) as Hlog by discriminate.
  assert (N_ingest_user <> END) as Hend by discriminate.
  destruct (run_complete _ _ _ _ _ _ Hlog Hend H) as [Hd Hadd].
  split; [exact Hd |]. split; [exact Hadd |].
  exact (run_answered _ _ _ _ _ _ H Hlog Hend).
Qed.

End GraphFacts.

Section ConversationFacts.

Variable chat : nat -> list Message -> string.
Variable py_str : json -> string.
Variable limit : nat.

Lemma append_message_grow m s : messages_grow s (append_message m s).
Proof. unfold messages_grow. rewrite get_messages_append. now eexists. Qed.

Lemma planner_grow s w : messages_grow s (fst (planner chat s w)).
Proof.
  destruct (planner_messages chat s w) as [H|[reply H]].
  - now apply messages_grow_eq.
  - unfold messages_grow. rewrite H. now eexists.
Qed.

Lemma turn_grow user_input s w s' w' :
  turn chat py_str limit user_input s w = Ok (s', w') -> messages_grow s s'.
Proof.
  unfold turn, invoke. intros H.
  eapply messages_grow_trans; [apply append_message_grow |].
  exact (run_messages chat py_str _ _ _ _ _ _ H).
Qed.

Lemma main_loop_grow inputs s w s' w' :
  main_loop chat py_str limit inputs s w = Ok (s', w') -> messages_grow s s'.
Proof.
  revert s w. induction inputs as [|raw rest IH]; intros s w; cbn [main_loop].
  - intros [= <- <-]. apply messages_grow_refl.
  - destruct (is_exit_word (lower (strip raw))).
    { intros [= <- <-]. apply messages_grow_refl. }
    destruct (is_empty (strip raw)); [apply IH |].
    destruct (turn chat py_str limit (strip raw) s w) as [[s1 w1]|] eqn:E;
      cbn [mbind result_bind]; [| discriminate].
    intros H. eapply messages_grow_trans; [eapply turn_grow, E | eapply IH, H].
Qed.

(** C9.  Each node of the graph, an invocation of the graph, a turn of the
    driver and a whole session of the driver return a state whose messages
    are the messages they were given, in the same order, possibly followed
    by new ones. *)
Theorem conversation_only_grows :
  (forall s w s' w', ingest_user s w = Ok (s', w') ->
     get_messages s `prefix_of` get_messages s')
  /\ (forall s w, get_messages s `prefix_of` get_messages (fst (planner chat s w)))
  /\ (forall s w s' w', run_tools s w = Ok (s', w') ->
        get_messages s `prefix_of` get_messages s')
  /\ (forall s w,
        get_messages s `prefix_of` get_messages (fst (answer chat py_str s w)))
  /\ (forall s w s' w', log_episode_node s w = Ok (s', w') ->
        get_messages s `prefix_of` get_messages s')
  /\ (forall s w s' w', invoke chat py_str limit s w = Ok (s', w') ->
        get_messages s `prefix_of` get_messages s')
  /\ (forall user_input s w s' w',
        turn chat py_str limit user_input s w = Ok (s', w') ->
        get_messages s `prefix_of` get_messages s')
  /\ (forall inputs s w s' w',
        main_loop chat py_str limit inputs s w = Ok (s', w') ->
        get_messages s `prefix_of` get_messages s').
Proof.
  repeat split.
  - intros s w s' w' H. now apply messages_grow_eq, (ingest_user_messages _ _ _ _ H).
  - apply planner_grow.
  - intros s w s' w' H. now apply messages_grow_eq, (run_tools_messages _ _ _ _ H).
  - intros s w. apply (turn_complete_grow _ _ (answer_complete chat py_str s w)).
  - intros s w s' w' H. apply log_episode_node_state in H as ->. reflexivity.
  - intros s w s' w' H. exact (run_messages chat py_str _ _ _ _ _ _ H).
  - intros user_input s w s' w' H. exact (turn_grow _ _ _ _ _ H).
  - intros inputs s w s' w' H. exact (main_loop_grow _ _ _ _ _ H).
Qed.

End ConversationFacts.

Section ActFacts.

Lemma extract_fields_phrase m value :
  contains "favorite color" (lower (content m)) = true ->
  last_word (split (remove_dots (content m))) = Some value ->
  extract_fields (Some m) = {[ "favorite_color" := JString value ]}.
Proof.
  intros Hc Hv. unfold extract_fields.
  now rewrite favorite_color_strip, Hc, split_remove_dots_strip, Hv.
Qed.

Lemma extract_fields_no_phrase m :
  contains "favorite color" (lower (content m)) = false ->
  extract_fields (Some m) = ∅.
Proof.
  intros Hc. unfold extract_fields. now rewrite favorite_color_strip, Hc.
Qed.

Lemma setdefault_tool_results_profile s :
  user_profile (setdefault_tool_results s) = user_profile s
  /\ profile_updated (setdefault_tool_results s) = profile_updated s.
Proof. unfold setdefault_tool_results. now destruct (tool_results s). Qed.

Lemma run_tools_update s w uid :
  next_action s = Some "update_profile" -> user_id s = Some uid ->
  run_tools s w
  = (let new_fields := extract_fields (last_of HumanMessage (get_messages s)) in
     if decide (new_fields = ∅) then Ok (setdefault_tool_results s, w)
     else
       '(merged, w') ← update_user_profile_tool uid new_fields w;
       Ok (setdefault_tool_results
             (set_profile_updated true (set_user_profile merged s)), w')).
Proof.
  intros Ha Hu. unfold run_tools. rewrite Ha, Hu. simpl.
  destruct (decide _); [reflexivity |].
  now destruct (update_user_profile_tool _ _ _) as [[? ?]|].
Qed.

(** C7.  In the act node with [next_action] "update_profile": when the
    lowercased text of the most recent user message contains "favorite
    color", the message without its dots has a last word, the update tool
    is called with that word under "favorite_color", and the state gets the
    profile that the tool returns as [user_profile] and true as
    [profile_updated]; when the phrase is absent, or there is no user
    message, the world is untouched and the state comes back as it was,
    [tool_results] being filled with the empty mapping if it was missing.
    For "My favorite color is blue." on a store that can be read and
    written, the node returns a state whose profile has "blue" under
    "favorite_color" and whose [profile_updated] is true. *)
Theorem run_tools_update_profile (s : AgentState) (w : World) (uid : string) :
  next_action s = Some "update_profile" ->
  user_id s = Some uid ->
  (forall m,
     last_of HumanMessage (get_messages s) = Some m ->
     contains "favorite color" (lower (content m)) = true ->
     exists value,
       last_word (split (remove_dots (content m))) = Some value
       /\ run_tools s w
          = ('(merged, w') ← update_user_profile_tool uid
                               {[ "favorite_color" := JString value ]} w;
             Ok (setdefault_tool_results
                   (set_profile_updated true (set_user_profile merged s)), w')))
  /\ ((forall m,
         last_of HumanMessage (get_messages s) = Some m ->
         contains "favorite color" (lower (content m)) = false) ->
      run_tools s w = Ok (setdefault_tool_results s, w)
      /\ (is_Some (tool_results s) -> run_tools s w = Ok (s, w)))
  /\ (forall m old,
        last_of HumanMessage (get_messages s) = Some m ->
        content m = "My favorite color is blue." ->
        writable w = true ->
        get_user_profile_tool uid w = Ok (JDict old) ->
        exists s' w' profile,
          run_tools s w = Ok (s', w')
          /\ user_profile s' = Some (JDict profile)
          /\ profile !! "favorite_color" = Some (JString "blue")
          /\ profile_updated s' = Some true).
Proof.
  intros Ha Hu. split; [| split].
  - intros m Hm Hc.
    destruct (favorite_color_has_word _ Hc) as [value Hv].
    exists value. split; [exact Hv |].
    rewrite (run_tools_update s w uid Ha Hu), Hm. cbn zeta.
    rewrite (extract_fields_phrase m value Hc Hv).
    destruct (decide _) as [E|_]; [| reflexivity].
    now apply map_non_empty_singleton in E.
  - intros Hno.
    assert (run_tools s w = Ok (setdefault_tool_results s, w)) as Hrun.
    { rewrite (run_tools_update s w uid Ha Hu). cbn zeta.
      assert (extract_fields (last_of HumanMessage (get_messages s)) = ∅) as ->.
      { destruct (last_of HumanMessage (get_messages s)) as [m|] eqn:Hm;
          [| reflexivity].
        apply extract_fields_no_phrase. now apply Hno. }
      now destruct (decide _). }
    split; [exact Hrun |]. intros [v Hv]. rewrite Hrun.
    unfold setdefault_tool_results. now rewrite Hv.
  - intros m old Hm Hblue Hw Hold.
    destruct (update_tool_returns uid {[ "favorite_color" := JString "blue" ]}
                old w Hw Hold) as (w' & Hupd & _).
    rewrite (run_tools_update s w uid Ha Hu), Hm. cbn zeta.
    rewrite (extract_fields_phrase m "blue");
      [| rewrite Hblue; reflexivity | rewrite Hblue; reflexivity].
    destruct (decide _) as [E|_]; [now apply map_non_empty_singleton in E |].
    rewrite Hupd. cbn [mbind result_bind]. do 3 eexists.
    split; [reflexivity |].
    destruct (setdefault_tool_results_profile
                (set_profile_updated true
                   (set_user_profile
                      (JDict (dict_update old
                                {[ "favorite_color" := JString "blue" ]})) s)))
      as [-> ->].
    split; [reflexivity |]. split; [| reflexivity].
    rewrite dict_update_lookup. reflexivity.
Qed.

End ActFacts.

(* ===================================================================== *)
(** * The statements at concrete inputs                                   *)
(* ===================================================================== *)

(** The keyword router on "What is the refund policy?", before and after
    the search for it. *)
Lemma planner_keyword_router_witness :
  planner scripted_chat (state_after_input "What is the refund policy?")
    refund_world
  = (set_next_action "search_policies"
       (state_after_input "What is the refund policy?"), refund_world)
  /\ keyword_router (state_after_search "What is the refund policy?") = false.
Proof.
  pose proof (planner_keyword_router scripted_chat
                (state_after_input "What is the refund policy?") refund_world
                (human_message "What is the refund policy?") eq_refl)
    as [Hforce _].
  pose proof (planner_keyword_router scripted_chat
                (state_after_search "What is the refund policy?") refund_world
                (human_message "What is the refund policy?") eq_refl)
    as [_ Hskip].
  split.
  - apply Hforce.
    + exists "refund". split; [left; reflexivity | reflexivity].
    + discriminate.
  - apply Hskip. reflexivity.
Defined.

(** The parser on the reply "Action: answer". *)
Lemma planner_fallback_parser_witness :
  next_action
    (fst (planner scripted_chat
            (state_after_search "What is the refund policy?") refund_world))
  = Some "answer".
Proof.
  exact (planner_fallback_parser scripted_chat
           (state_after_search "What is the refund policy?") refund_world
           eq_refl).
Defined.

(** The run of the graph on "What is the refund policy?" with a file
    policies/refund.txt: the router chooses the search without the model,
    the document is retrieved, two prompts go to the model (one to plan after
    the search, one to answer), and the log gains the line of the final
    reply. *)
Example refund_scenario :
  match invoke scripted_chat plain_str 25
          (state_after_input "What is the refund policy?") refund_world with
  | Ok (s', w') =>
      get_messages s'
      = [ human_message "What is the refund policy?";
          ai_message "Action: answer";
          ai_message "Refunds are accepted within 30 days." ]
      /\ policy_query s' = Some "What is the refund policy?"
      /\ retrieved_policies s'
         = Some [make_document "policies/refund.txt"
                   "Refunds are accepted within 30 days."]
      /\ length (model_calls w') = 2
      /\ List.map loads_record (lines (episodes_text w'))
         = [Some (demo_user, "Refunds are accepted within 30 days.")]
  | Raise _ => False
  end.
Proof. vm_compute. repeat split. Qed.

(** A model that keeps choosing "update_profile" keeps the graph between
    the planner and the tools until the recursion limit stops the run. *)
Example update_profile_loop :
  invoke (fun _ _ => "Action: update_profile") plain_str 25
    (state_after_input "My favorite color is blue.") empty_world
  = Raise GraphRecursionError.
Proof. vm_compute. reflexivity. Qed.

(** A whole turn on "What is the refund policy?": the router forces the
    search, the model then chooses to answer, and the turn ends. *)
Lemma invoke_turn_complete_witness :
  exists s' w',
    invoke scripted_chat plain_str 25
      (state_after_input "What is the refund policy?") refund_world
    = Ok (s', w')
    /\ done s' = Some true.
Proof.
  destruct (invoke scripted_chat plain_str 25
              (state_after_input "What is the refund policy?") refund_world)
    as [[s' w']|e] eqn:E.
  - exists s', w'. split; [reflexivity |].
    exact (proj1 (invoke_turn_complete scripted_chat plain_str 25 _ _ _ _ E)).
  - vm_compute in E. discriminate E.
Defined.

(** The first fact recorded for a user. *)
Lemma update_then_get_profile_witness :
  exists merged w',
    update_user_profile_tool "u1" {[ "favorite_color" := JString "blue" ]}
      empty_world
    = Ok (JDict merged, w')
    /\ get_user_profile_tool "u1" w' = Ok (JDict merged)
    /\ merged !! "favorite_color" = Some (JString "blue").
Proof.
  destruct (update_then_get_profile "u1"
              {[ "favorite_color" := JString "blue" ]} ∅ empty_world
              eq_refl eq_refl) as (merged & w' & H1 & H2 & H3).
  exists merged, w'. split; [exact H1 |]. split; [exact H2 |].
  rewrite H3. reflexivity.
Defined.

(** The search on a blank query and on "What is the refund policy?". *)
Lemma search_policies_sound_witness :
  search_policies "   " 3 refund_world = Ok []
  /\ exists docs,
       search_policies "What is the refund policy?" 3 refund_world = Ok docs
       /\ (Z.of_nat (length docs) <= 3)%Z
       /\ forall doc, In doc docs ->
            In (source doc, Ok (page_content doc)) (policy_files refund_world).
Proof.
  split.
  - apply (proj1 (search_policies_sound "   " 3 refund_world)). reflexivity.
  - destruct (search_policies "What is the refund policy?" 3 refund_world)
      as [docs|e] eqn:E; [| vm_compute in E; discriminate E].
    exists docs. split; [reflexivity |]. split.
    + apply (proj1 (proj2 (proj2 (search_policies_sound
                                    "What is the refund policy?" 3
                                    refund_world))));
        [lia | exact E].
    + intros doc Hin.
      exact (proj1 (proj1 (proj2 (search_policies_sound
                                    "What is the refund policy?" 3
                                    refund_world)) docs doc E Hin)).
Defined.

(** The toy rule on "My favorite color is blue.". *)
Lemma run_tools_update_profile_witness :
  exists s' w' profile,
    run_tools (state_with_action "My favorite color is blue." "update_profile")
      empty_world
    = Ok (s', w')
    /\ user_profile s' = Some (JDict profile)
    /\ profile !! "favorite_color" = Some (JString "blue")
    /\ profile_updated s' = Some true.
Proof.
  apply (proj2 (proj2 (run_tools_update_profile
                         (state_with_action "My favorite color is blue."
                                            "update_profile")
                         empty_world demo_user eq_refl eq_refl))
           (human_message "My favorite color is blue.") ∅);
    reflexivity.
Defined.

(** Two appends to a log that does not exist yet. *)
Lemma append_episode_log_witness :
  exists w' added,
    append_episodes [("u1", "Hello."); ("u1", "Refunds take 30 days.")]
      empty_world = Ok w'
    /\ episodes_text w' = added
    /\ length (lines added) = 2
    /\ lines (episodes_text w') = lines added.
Proof.
  destruct (append_episode_log
              [("u1", "Hello."); ("u1", "Refunds take 30 days.")]
              empty_world eq_refl) as (w' & added & H1 & H2 & H3 & _ & H5).
  exists w', added. split; [exact H1 |]. split; [exact H2 |].
  split; [exact H3 |]. exact (proj1 (H5 eq_refl)).
Defined.

(** The conversation after a whole turn starts with the user's message. *)
Lemma conversation_only_grows_witness :
  exists s' w',
    invoke scripted_chat plain_str 25
      (state_after_input "What is the refund policy?") refund_world
    = Ok (s', w')
    /\ [human_message "What is the refund policy?"]
       `prefix_of` get_messages s'.
Proof.
  destruct (invoke scripted_chat plain_str 25
              (state_after_input "What is the refund policy?") refund_world)
    as [[s' w']|e] eqn:E.
  - exists s', w'. split; [reflexivity |].
    exact (proj1 (proj2 (proj2 (proj2 (proj2 (proj2
             (conversation_only_grows scripted_chat plain_str 25))))))
             _ _ _ _ E).
  - vm_compute in E. discriminate E.
Defined.

(* ===================================================================== *)
(** * Further properties of the profile store                             *)
(* ===================================================================== *)

Section StoreProperties.

(** What a successful save has read and written. *)
Lemma save_user_profile_inv user_id profile w w' :
  save_user_profile user_id profile w = Ok w' ->
  exists d,
    read_profiles w = Ok (JDict d)
    /\ writable w = true
    /\ w' = set_profile_file (Holds (JDict (<[user_id := profile]> d))) w.
Proof.
  unfold save_user_profile.
  destruct (read_profiles w) as [[| | | | |d]|] eqn:E; simpl; try discriminate.
  destruct (writable w); [| discriminate].
  intros [= <-]. eauto.
Qed.

Lemma load_other_after_save user_id other profile w w' :
  save_user_profile user_id profile w = Ok w' -> other <> user_id ->
  load_user_profile other w' = load_user_profile other w.
Proof.
  intros (d & Hread & _ & ->)%save_user_profile_inv Hne.
  unfold load_user_profile. rewrite Hread. simpl.
  now rewrite lookup_insert_ne by congruence.
Qed.

Lemma update_tool_inv user_id fields w merged w' :
  update_user_profile_tool user_id fields w = Ok (merged, w') ->
  exists old,
    load_user_profile user_id w = Ok (JDict old)
    /\ merged = JDict (dict_update old fields)
    /\ save_user_profile user_id merged w = Ok w'.
Proof.
  unfold update_user_profile_tool.
  destruct (load_user_profile user_id w) as [[| | | | |old]|]; simpl;
    try discriminate.
  destruct (save_user_profile _ _ w) as [w1|] eqn:E; simpl; [| discriminate].
  intros [= <- <-]. eauto.
Qed.

(** X1.  What [save_user_profile] has written for a user,
    [load_user_profile] reads back, whatever the value. *)
Theorem save_then_load (user_id : string) (profile : json) (w w' : World) :
  save_user_profile user_id profile w = Ok w' ->
  load_user_profile user_id w' = Ok profile.
Proof. apply load_after_save. Qed.

(** X2.  A save for one user leaves what every other user loads as it
    was, also when the file was missing or not JSON before. *)
Theorem save_keeps_other_users (user_id other : string) (profile : json)
    (w w' : World) :
  save_user_profile user_id profile w = Ok w' ->
  other <> user_id ->
  load_user_profile other w' = load_user_profile other w.
Proof. apply load_other_after_save. Qed.



(** X4.  The update tool returns exactly when the data directory can be
    written and the stored entry of the user loads as a mapping. *)
Theorem update_tool_returns_iff (user_id : string)
    (fields : gmap string json) (w : World) :
  (exists merged w',
     update_user_profile_tool user_id fields w = Ok (merged, w'))
  <-> (writable w = true
       /\ exists old, load_user_profile user_id w = Ok (JDict old)).
Proof.
  split.
  - intros (merged & w' & H).
    apply update_tool_inv in H as (old & Hload & _ & Hsave).
    apply save_user_profile_inv in Hsave as (_ & _ & Hw & _). eauto.
  - intros (Hw & old & Hload).
    destruct (update_tool_returns user_id fields old w Hw Hload) as (w' & H & _).
    eauto.
Qed.

(** X5.  The update tool changes the entry of its user in the profiles
    file and nothing else: the episode log, the policy files and the log of
    model calls are untouched, and every other user loads the same
    profile. *)
Theorem update_tool_frame (user_id : string) (fields : gmap string json)
    (w w' : World) (merged : json) :
  update_user_profile_tool user_id fields w = Ok (merged, w') ->
  episodes_file w' = episodes_file w
  /\ policy_files w' = policy_files w
  /\ model_calls w' = model_calls w
  /\ writable w' = writable w
  /\ forall other, other <> user_id ->
       load_user_profile other w' = load_user_profile other w.
Proof.
  intros (old & _ & _ & Hsave)%update_tool_inv.
  repeat split;
    try (apply save_user_profile_inv in Hsave as (d & _ & _ & ->); reflexivity).
  intros other Hne. eapply load_other_after_save; eassumption.
Qed.

(** X6.  Two updates in a row leave the same file and return the same
    profile as one update with the second mapping laid over the first; in
    particular an update done twice is the update done once. *)
Theorem update_tool_compose (user_id : string)
    (fields1 fields2 : gmap string json) (w w1 w2 : World)
    (merged1 merged2 : json) :
  update_user_profile_tool user_id fields1 w = Ok (merged1, w1) ->
  update_user_profile_tool user_id fields2 w1 = Ok (merged2, w2) ->
  update_user_profile_tool user_id (fields2 ∪ fields1) w = Ok (merged2, w2)
  /\ (fields2 = fields1 -> merged2 = merged1 /\ w2 = w1).
Proof.
  intros H1 H2.
  apply update_tool_inv in H1 as (old & Hload & -> & Hsave1).
  pose proof (load_after_save _ _ _ _ Hsave1) as Hload1.
  apply update_tool_inv in H2 as (old1 & Hload1' & -> & Hsave2).
  rewrite Hload1 in Hload1'. injection Hload1' as <-.
  apply save_user_profile_inv in Hsave1 as (d & Hread & Hw & ->).
  apply save_user_profile_inv in Hsave2 as (d1 & Hread1 & _ & ->).
  simpl in Hread1. injection Hread1 as <-.
  assert (dict_update (dict_update old fields1) fields2
          = dict_update old (fields2 ∪ fields1)) as Hassoc.
  { unfold dict_update. now rewrite (assoc_L (∪)). }
  split.
  - unfold update_user_profile_tool, save_user_profile.
    rewrite Hload, Hread. simpl. rewrite Hw. simpl.
    rewrite insert_insert_eq, Hassoc. reflexivity.
  - intros ->. rewrite insert_insert_eq, Hassoc.
    now rewrite (idemp_L (∪) fields1).
Qed.

End StoreProperties.

Lemma save_then_load_witness :
  load_user_profile "u1"
    (set_profile_file (Holds (JDict {[ "u1" := JString "x" ]}))
       (world_with_profiles (Garbled "{oops")))
  = Ok (JString "x").
Proof.
  apply (save_then_load "u1" (JString "x")
           (world_with_profiles (Garbled "{oops"))).
  reflexivity.
Defined.

(* ===================================================================== *)
(** * Further properties of the policy search                             *)
(* ===================================================================== *)

Section SearchProperties.

Lemma lower_char_idemp c : lower_char (lower_char c) = lower_char c.
Proof. each_char c; reflexivity. Qed.

Lemma lower_idemp s : lower (lower s) = lower s.
Proof.
  induction s as [|c r IH]; [reflexivity |].
  simpl. now rewrite lower_char_idemp, IH.
Qed.

Lemma rstrip_idemp drop s :
  rstrip_with drop (rstrip_with drop s) = rstrip_with drop s.
Proof.
  induction s as [|c r IH]; [reflexivity |].
  cbn [rstrip_with].
  destruct (drop c && is_empty (rstrip_with drop r)) eqn:E; [reflexivity |].
  cbn [rstrip_with]. now rewrite IH, E.
Qed.

Lemma lstrip_clean_start drop s : clean_start drop (lstrip_with drop s).
Proof.
  induction s as [|c r IH]; simpl; [exact I |].
  destruct (drop c) eqn:E; [exact IH | exact E].
Qed.

Lemma rstrip_clean_start drop s :
  clean_start drop s -> clean_start drop (rstrip_with drop s).
Proof.
  destruct s as [|c r]; simpl; [auto |]. intros H. rewrite H. exact H.
Qed.

Lemma lstrip_fixed drop s : clean_start drop s -> lstrip_with drop s = s.
Proof. destruct s as [|c r]; simpl; [auto |]. now intros ->. Qed.

Lemma strip_with_idemp drop s :
  strip_with drop (strip_with drop s) = strip_with drop s.
Proof.
  unfold strip_with.
  rewrite (lstrip_fixed drop (rstrip_with drop (lstrip_with drop s)))
    by apply rstrip_clean_start, lstrip_clean_start.
  apply rstrip_idemp.
Qed.

Lemma scan_files_firstn keywords top_k files docs res :
  (Z.of_nat (length docs) < top_k)%Z ->
  scan_files keywords top_k files docs = Ok res ->
  res = docs ++ firstn (Z.to_nat top_k - length docs)
                 (List.filter (fun doc => matches keywords (page_content doc))
                              (readable_documents files)).
Proof.
  revert docs. induction files as [|[path [text|e]] rest IH]; intros docs Hlt;
    simpl.
  - intros [= <-]. now rewrite firstn_nil, app_nil_r.
  - destruct (matches keywords text).
    + rewrite length_app. simpl.
      replace (Z.to_nat top_k - length docs)
        with (S (Z.to_nat top_k - (length docs + 1))) by lia.
      simpl. destruct (Z.leb_spec top_k (Z.of_nat (length docs + 1))).
      * replace (Z.to_nat top_k - (length docs + 1)) with 0 by lia.
        now intros [= <-].
      * intros Hres. apply IH in Hres; [| rewrite length_app; simpl; lia].
        rewrite Hres, length_app, <- app_assoc. reflexivity.
    + destruct (Z.leb_spec top_k (Z.of_nat (length docs))); [lia |].
      now apply IH.
  - destruct e; try discriminate. now apply IH.
Qed.

Lemma search_policies_firstn query top_k w docs :
  (1 <= top_k)%Z ->
  search_policies query top_k w = Ok docs ->
  docs = firstn (Z.to_nat top_k) (matching_documents query w).
Proof.
  intros Hk. unfold search_policies, matching_documents.
  destruct (is_empty (lower (strip query)));
    [intros [= <-]; now rewrite firstn_nil |].
  intros Hres. apply scan_files_firstn in Hres; [| simpl; lia].
  simpl in Hres. now rewrite Nat.sub_0_r in Hres.
Qed.

Lemma scan_files_no_limit keywords top_k files res :
  (top_k <= 0)%Z ->
  scan_files keywords top_k files [] = Ok res ->
  res = match readable_documents files with
        | [] => []
        | doc :: _ => if matches keywords (page_content doc) then [doc] else []
        end.
Proof.
  intros Hk. induction files as [|[path [text|e]] rest IH]; simpl.
  - now intros [= <-].
  - destruct (matches keywords text); simpl;
      match goal with
      | |- context [(top_k <=? ?n)%Z] => destruct (Z.leb_spec top_k n)
      end; try lia; now intros [= <-].
  - destruct e; try discriminate. exact IH.
Qed.

(** X7.  With a limit of at least one, a search that returns has returned
    the first [top_k] of the readable files that match, in the order of the
    directory listing: no file is returned twice, files whose read raises
    OSError count for nothing, and files after the last one returned play no
    part.  The search returns when no read raises anything but OSError; a
    first file whose read raises another exception, as a file that is not
    UTF-8 does, makes the search for a query that is not blank raise it. *)
Theorem search_policies_first_matches (query : string) (top_k : Z) (w : World) :
  (1 <= top_k)%Z ->
  (forall docs,
     search_policies query top_k w = Ok docs ->
     docs = firstn (Z.to_nat top_k) (matching_documents query w))
  /\ (no_fatal_read (policy_files w) ->
      search_policies query top_k w
      = Ok (firstn (Z.to_nat top_k) (matching_documents query w)))
  /\ (forall path e rest,
        policy_files w = (path, Raise e) :: rest -> e <> OSError ->
        is_empty (strip query) = false ->
        search_policies query top_k w = Raise e).
Proof.
  intros Hk. split; [| split].
  - intros docs. now apply search_policies_firstn.
  - intros Hok. destruct (search_policies_returns query top_k w Hok)
      as [docs Hres].
    now rewrite Hres, (search_policies_firstn _ _ _ _ Hk Hres).
  - intros path e rest Hfiles He Hq. unfold search_policies.
    rewrite is_empty_lower, Hq, Hfiles. simpl.
    destruct e; try reflexivity. now destruct He.
Qed.

(** X8.  With a limit of zero or less, a search that returns has looked
    at the first readable file only: it returns that file if it matches and
    nothing otherwise, whatever the later files hold; and the search returns
    when no read raises anything but OSError. *)
Theorem search_policies_nonpositive_limit (query : string) (top_k : Z)
    (w : World) :
  (top_k <= 0)%Z ->
  is_empty (strip query) = false ->
  (forall docs,
     search_policies query top_k w = Ok docs ->
     docs = match readable_documents (policy_files w) with
            | [] => []
            | doc :: _ =>
                if matches (extract_keywords (lower (strip query)))
                           (page_content doc)
                then [doc] else []
            end)
  /\ (no_fatal_read (policy_files w) ->
      search_policies query top_k w
      = Ok match readable_documents (policy_files w) with
           | [] => []
           | doc :: _ =>
               if matches (extract_keywords (lower (strip query)))
                          (page_content doc)
               then [doc] else []
           end).
Proof.
  intros Hk Hq.
  assert (forall docs,
            search_policies query top_k w = Ok docs ->
            docs = match readable_documents (policy_files w) with
                   | [] => []
                   | doc :: _ =>
                       if matches (extract_keywords (lower (strip query)))
                                  (page_content doc)
                       then [doc] else []
                   end) as Hcond.
  { intros docs. unfold search_policies. rewrite is_empty_lower, Hq.
    now apply scan_files_no_limit. }
  split; [exact Hcond |]. intros Hok.
  destruct (search_policies_returns query top_k w Hok) as [docs Hres].
  now rewrite Hres, (Hcond docs Hres).
Qed.

(** X9.  The search does not see the case of the query nor the white
    space around it. *)
Theorem search_policies_query_normal (query : string) (top_k : Z) (w : World) :
  search_policies (lower query) top_k w = search_policies query top_k w
  /\ search_policies (strip query) top_k w = search_policies query top_k w.
Proof.
  unfold search_policies. split.
  - now rewrite <- lower_strip, lower_idemp.
  - unfold strip. now rewrite strip_with_idemp.
Qed.

Lemma search_policies_smaller_limit query k k' w docs' :
  (1 <= k)%Z -> (k <= k')%Z ->
  search_policies query k' w = Ok docs' ->
  exists docs, search_policies query k w = Ok docs /\ docs `prefix_of` docs'.
Proof.
  intros H1 H2 Hd'.
  assert (exists docs, search_policies query k w = Ok docs) as [docs Hd].
  { revert Hd'. unfold search_policies.
    destruct (is_empty (lower (strip query))); [eauto |].
    now apply scan_files_smaller_limit. }
  exists docs. split; [exact Hd |].
  rewrite (search_policies_firstn _ _ _ _ H1 Hd).
  rewrite (search_policies_firstn query k' w docs') by (lia || assumption).
  replace (Z.to_nat k) with (Z.to_nat k `min` Z.to_nat k') by lia.
  rewrite <- take_take. apply prefix_take.
Qed.

(** X10.  Raising the limit only adds documents at the end: for limits
    [1 <= k <= k'], when the search with [k'] returns, the search with [k]
    returns too, and its result is the start of the result of the search
    with [k']. *)
Theorem search_policies_limit_monotone (query : string) (k k' : Z) (w : World)
    (docs' : list Document) :
  (1 <= k)%Z -> (k <= k')%Z ->
  search_policies query k' w = Ok docs' ->
  exists docs, search_policies query k w = Ok docs /\ docs `prefix_of` docs'.
Proof. apply search_policies_smaller_limit. Qed.

End SearchProperties.

Lemma search_policies_first_matches_witness :
  search_policies "REFUND rules?" 1
    (world_with_policies
       [ ("policies/a.txt", Raise OSError);
         ("policies/b.txt", Ok "Loans.");
         ("policies/c.txt", Ok "Refund within 30 days.");
         ("policies/d.txt", Ok "No refund on sale items.") ])
  = Ok [make_document "policies/c.txt" "Refund within 30 days."]
  /\ search_policies "refund" 3
       (world_with_policies
          [ ("policies/binary.txt", Raise UnicodeDecodeError);
            ("policies/c.txt", Ok "Refund within 30 days.") ])
     = Raise UnicodeDecodeError.
Proof.
  split.
  - rewrite (proj1 (proj2 (search_policies_first_matches "REFUND rules?" 1
                             (world_with_policies
                                [ ("policies/a.txt", Raise OSError);
                                  ("policies/b.txt", Ok "Loans.");
                                  ("policies/c.txt",
                                    Ok "Refund within 30 days.");
                                  ("policies/d.txt",
                                    Ok "No refund on sale items.") ])
                             ltac:(lia))));
      [reflexivity |].
    intros path e [H|[H|[H|[H|[]]]]]; inversion H; reflexivity.
  - apply (proj2 (proj2 (search_policies_first_matches "refund" 3
                           (world_with_policies
                              [ ("policies/binary.txt",
                                  Raise UnicodeDecodeError);
                                ("policies/c.txt",
                                  Ok "Refund within 30 days.") ])
                           ltac:(lia)))
             "policies/binary.txt" UnicodeDecodeError
             [("policies/c.txt", Ok "Refund within 30 days.")]);
      [reflexivity | discriminate | reflexivity].
Defined.

Lemma search_policies_nonpositive_limit_witness :
  search_policies "refund" (-1)
    (world_with_policies
       [ ("policies/b.txt", Ok "Loans.");
         ("policies/c.txt", Ok "Refund within 30 days.") ])
  = Ok [].
Proof.
  rewrite (proj2 (search_policies_nonpositive_limit "refund" (-1)
                    (world_with_policies
                       [ ("policies/b.txt", Ok "Loans.");
                         ("policies/c.txt", Ok "Refund within 30 days.") ])
                    ltac:(lia) eq_refl));
    [reflexivity |].
  intros path e [H|[H|[]]]; inversion H.
Defined.

Lemma search_policies_limit_monotone_witness :
  exists docs,
    search_policies "refund" 1
      (world_with_policies
         [ ("policies/c.txt", Ok "Refund within 30 days.");
           ("policies/d.txt", Ok "No refund on sale items.") ])
    = Ok docs
    /\ docs `prefix_of`
         [ make_document "policies/c.txt" "Refund within 30 days.";
           make_document "policies/d.txt" "No refund on sale items." ].
Proof.
  apply (search_policies_limit_monotone "refund" 1 3
           (world_with_policies
              [ ("policies/c.txt", Ok "Refund within 30 days.");
                ("policies/d.txt", Ok "No refund on sale items.") ]));
    [lia | lia | reflexivity].
Defined.

(* ===================================================================== *)
(** * Further properties of the graph                                     *)
(* ===================================================================== *)

Section GraphProperties.

Variable chat : nat -> list Message -> string.
Variable py_str : json -> string.

Lemma parse_action_cases text :
  parse_action text = "search_policies" \/ parse_action text = "update_profile"
  \/ parse_action text = "ask_clarification" \/ parse_action text = "answer".
Proof.
  unfold parse_action.
  repeat match goal with
         | |- context [contains ?m text] => destruct (contains m text)
         end; auto.
Qed.

Lemma planner_action s w :
  exists action,
    next_action (fst (planner chat s w)) = Some action
    /\ (action = "search_policies" \/ action = "update_profile"
        \/ action = "ask_clarification" \/ action = "answer").
Proof.
  unfold planner. destruct (keyword_router s); simpl.
  - exists "search_policies". auto.
  - eexists. split; [reflexivity | apply parse_action_cases].
Qed.

Lemma step_planner_inv s w n' s' w' :
  step chat py_str N_planner s w = Ok (n', s', w') ->
  s' = fst (planner chat s w) /\ w' = snd (planner chat s w)
  /\ ((n' = N_answer /\ answering s')
      \/ (n' = N_run_tools
          /\ (next_action s' = Some "search_policies"
              \/ next_action s' = Some "update_profile"))).
Proof.
  cbn [step]. destruct (planner chat s w) as [s1 w1]. simpl.
  destruct (next_action s1) as [a|] eqn:Ha; [| discriminate].
  unfold conditional_edge, answering.
  destruct (String.eqb_spec a "answer") as [->|].
  { intros [= <- <- <-]. do 2 (split; [reflexivity |]). left. auto. }
  destruct (String.eqb_spec a "search_policies") as [->|].
  { intros [= <- <- <-]. do 2 (split; [reflexivity |]). right. auto. }
  destruct (String.eqb_spec a "update_profile") as [->|].
  { intros [= <- <- <-]. do 2 (split; [reflexivity |]). right. auto. }
  destruct (String.eqb_spec a "ask_clarification") as [->|]; [| discriminate].
  intros [= <- <- <-]. do 2 (split; [reflexivity |]). left. auto.
Qed.

(** X11.  The planner always leaves one of the four actions of the edge
    table in [next_action], so the edge out of the planner never fails: the
    graph goes to the tools on "search_policies" and "update_profile" and to
    the answer on "answer" and "ask_clarification". *)
Theorem planner_edge_total (s : AgentState) (w : World) :
  exists action n',
    next_action (fst (planner chat s w)) = Some action
    /\ step chat py_str N_planner s w
       = Ok (n', fst (planner chat s w), snd (planner chat s w))
    /\ ((n' = N_run_tools
         /\ (action = "search_policies" \/ action = "update_profile"))
        \/ (n' = N_answer
            /\ (action = "answer" \/ action = "ask_clarification"))).
Proof.
  destruct (planner_action s w) as (action & Ha & Hcases).
  cbn [step]. destruct (planner chat s w) as [s1 w1]. simpl in *.
  rewrite Ha.
  destruct Hcases as [-> | [-> | [-> | ->]]]; eexists _, _;
    (split; [reflexivity |]); (split; [reflexivity |]); auto.
Qed.

Lemma keyword_router_setdefault s :
  keyword_router (setdefault_tool_results s) = keyword_router s.
Proof. unfold setdefault_tool_results. now destruct (tool_results s). Qed.

Lemma run_tools_search s w s' w' :
  next_action s = Some "search_policies" ->
  run_tools s w = Ok (s', w') ->
  exists hits,
    search_policies
      (match last_of HumanMessage (get_messages s) with
       | Some m => content m
       | None => EmptyString
       end) default_top_k w = Ok hits
    /\ w' = w
    /\ s' = setdefault_tool_results
              (set_retrieved_policies hits
                 (set_policy_query
                    (match last_of HumanMessage (get_messages s) with
                     | Some m => content m
                     | None => EmptyString
                     end) s)).
Proof.
  intros Ha. unfold run_tools. rewrite Ha.
  destruct (user_id s) as [uid|]; [| discriminate]. simpl.
  destruct (search_policies _ _ _) as [hits|]; simpl; [| discriminate].
  intros [= <- <-]. now exists hits.
Qed.

Lemma run_tools_search_router s w s' w' :
  next_action s = Some "search_policies" ->
  run_tools s w = Ok (s', w') ->
  keyword_router s' = false /\ w' = w /\ user_id s' = user_id s.
Proof.
  intros Ha Hrun.
  destruct (run_tools_search s w s' w' Ha Hrun) as (hits & _ & -> & ->).
  split; [| split; [reflexivity |]].
  - rewrite keyword_router_setdefault. unfold keyword_router. simpl.
    change (get_messages (set_retrieved_policies _ (set_policy_query _ s)))
      with (get_messages s).
    destruct (last_of HumanMessage (get_messages s)) as [m|]; [| reflexivity].
    unfold already_searched. simpl. rewrite String.eqb_refl.
    apply andb_false_r.
  - unfold setdefault_tool_results. simpl.
    now destruct (tool_results s).
Qed.

(** X12.  A search disarms the keyword router: after the tools have run
    with "search_policies", the router declines, so the next planning step
    goes to the model and the router cannot send the graph to the search
    twice in a row. *)
Theorem search_disarms_router (s s' : AgentState) (w w' : World) :
  next_action s = Some "search_policies" ->
  run_tools s w = Ok (s', w') ->
  keyword_router s' = false
  /\ model_calls (snd (planner chat s' w'))
     = model_calls w ++ [planner_system :: get_messages s'].
Proof.
  intros Ha Hrun.
  destruct (run_tools_search_router s w s' w' Ha Hrun) as (Hr & -> & _).
  split; [exact Hr |]. unfold planner. rewrite Hr. reflexivity.
Qed.

End GraphProperties.

Section RunProperties.

Variable chat : nat -> list Message -> string.
Variable py_str : json -> string.

Lemma user_id_setdefaults s :
  user_id (setdefault_done
             (setdefault_tool_results (setdefault_retrieved_policies s)))
  = user_id s.
Proof.
  unfold setdefault_done, setdefault_tool_results,
    setdefault_retrieved_policies.
  destruct (retrieved_policies s); simpl;
    destruct (tool_results s); simpl; destruct (done s); reflexivity.
Qed.

Lemma ingest_user_user_id s w s' w' :
  ingest_user s w = Ok (s', w') -> user_id s' = user_id s.
Proof.
  unfold ingest_user.
  destruct (user_id s) as [uid|] eqn:Hu, (user_profile s) as [p|]; simpl;
    try (intros [= <- <-]; now rewrite user_id_setdefaults).
  destruct (is_empty uid); simpl;
    try (intros [= <- <-]; now rewrite user_id_setdefaults).
  destruct (get_user_profile_tool uid w); simpl; [| discriminate].
  intros [= <- <-]. now rewrite user_id_setdefaults.
Qed.

Lemma run_tools_frame s w s' w' :
  run_tools s w = Ok (s', w') ->
  user_id s' = user_id s
  /\ policy_files w' = policy_files w /\ writable w' = writable w
  /\ episodes_file w' = episodes_file w /\ model_calls w' = model_calls w.
Proof.
  assert (Hsd : forall x, user_id (setdefault_tool_results x) = user_id x).
  { intros x. unfold setdefault_tool_results. now destruct (tool_results x). }
  unfold run_tools. destruct (user_id s) as [uid|] eqn:Hu; [| discriminate].
  destruct (String.eqb _ "search_policies"); simpl.
  { destruct (search_policies _ _ _) as [hits|]; simpl; [| discriminate].
    intros [= <- <-]. now rewrite Hsd. }
  destruct (String.eqb _ "update_profile"); simpl.
  2: { intros [= <- <-]. now rewrite Hsd. }
  destruct (decide _); simpl.
  { intros [= <- <-]. now rewrite Hsd. }
  destruct (update_user_profile_tool _ _ _) as [[p w1]|] eqn:E; simpl;
    [| discriminate].
  intros [= <- <-]. rewrite Hsd.
  apply update_tool_inv in E as (old & _ & _ & Hsave).
  apply save_user_profile_inv in Hsave as (d & _ & _ & ->). now simpl.
Qed.

Lemma planner_frame s w :
  user_id (fst (planner chat s w)) = user_id s
  /\ policy_files (snd (planner chat s w)) = policy_files w
  /\ writable (snd (planner chat s w)) = writable w
  /\ episodes_file (snd (planner chat s w)) = episodes_file w
  /\ model_calls w `prefix_of` model_calls (snd (planner chat s w)).
Proof.
  unfold planner. destruct (keyword_router s); simpl;
    repeat split; try reflexivity. now eexists.
Qed.

(** What one step from one of the first three nodes keeps. *)
Lemma step_frame n s w n' s1 w1 :
  step chat py_str n s w = Ok (n', s1, w1) ->
  n <> N_answer -> n <> N_log_episode -> n <> END ->
  user_id s1 = user_id s
  /\ policy_files w1 = policy_files w /\ writable w1 = writable w
  /\ episodes_file w1 = episodes_file w
  /\ model_calls w `prefix_of` model_calls w1
  /\ (n' = N_answer -> answering s1).
Proof.
  intros Hstep Ha Hl He. destruct n; try contradiction.
  - simpl in Hstep.
    destruct (ingest_user s w) as [[s2 w2]|] eqn:E; simpl in Hstep;
      [| discriminate].
    injection Hstep as <- <- <-.
    pose proof (ingest_user_user_id _ _ _ _ E) as Hu.
    apply ingest_user_messages in E as [_ ->].
    repeat split; try assumption; try reflexivity. discriminate.
  - apply step_planner_inv in Hstep as (-> & -> & Hn).
    destruct (planner_frame s w) as (H1 & H2 & H3 & H4 & H5).
    repeat split; try assumption.
    intros ->. destruct Hn as [[_ H]|[H _]]; [exact H | discriminate].
  - simpl in Hstep.
    destruct (run_tools s w) as [[s2 w2]|] eqn:E; simpl in Hstep;
      [| discriminate].
    injection Hstep as <- <- <-.
    destruct (run_tools_frame _ _ _ _ E) as (H1 & H2 & H3 & H4 & H5).
    rewrite H5. repeat split; try assumption; try reflexivity. discriminate.
Qed.

(** What a run that ends has done, from any node before the log. *)
Lemma run_summary limit n s w s' w' :
  run chat py_str limit n s w = Ok (s', w') ->
  n <> N_log_episode -> n <> END -> (n = N_answer -> answering s) ->
  user_id s' = user_id s
  /\ policy_files w' = policy_files w /\ writable w' = writable w
  /\ model_calls w `prefix_of` model_calls w'
  /\ length (model_calls w) < length (model_calls w')
  /\ answering s'
  /\ exists reply,
       list.last (get_messages s') = Some (ai_message reply)
       /\ episodes_text w'
          = episodes_text w
              +:+ dumps_record (default "unknown-user" (user_id s)) reply
              +:+ String newline EmptyString.
Proof.
  revert n s w. induction limit as [|limit IH]; intros n s w Hrun Hlog Hend Hans.
  - discriminate Hrun.
  - assert (n = N_answer \/ n <> N_answer) as [->|Hna]
      by (destruct n; auto; right; discriminate).
    + apply run_from_answer_inv in Hrun as (reply & _ & -> & Hw & ->).
      simpl. do 3 (split; [reflexivity |]).
      split; [now eexists |].
      split; [rewrite length_app; simpl; lia |].
      split; [apply Hans; reflexivity |].
      exists reply. split; [| reflexivity].
      change (get_messages (set_done true (append_message ?m s)))
        with (get_messages s ++ [m]).
      apply last_snoc.
    + rewrite (run_unfold _ _ _ _ _ _ Hend) in Hrun.
      destruct (step chat py_str n s w) as [[[n' s1] w1]|] eqn:Hstep;
        simpl in Hrun; [| discriminate].
      destruct (step_target _ _ _ _ _ _ _ _ Hstep Hna Hlog Hend) as [T1 T2].
      destruct (step_frame _ _ _ _ _ _ Hstep Hna Hlog Hend)
        as (F1 & F2 & F3 & F4 & F5 & F6).
      destruct (IH _ _ _ Hrun T1 T2 F6)
        as (G1 & G2 & G3 & G4 & G5 & G6 & reply & G7 & G8).
      split; [congruence |]. split; [congruence |]. split; [congruence |].
      split; [etransitivity; eassumption |].
      split; [apply prefix_length in F5; lia |]. split; [exact G6 |].
      exists reply. split; [exact G7 |].
      rewrite G8, F1. unfold episodes_text. now rewrite F4.
Qed.

Lemma run_more_limit limit limit' n s w r :
  run chat py_str limit n s w = Ok r -> limit <= limit' ->
  run chat py_str limit' n s w = Ok r.
Proof.
  revert limit' n s w. induction limit as [|limit IH]; intros limit' n s w.
  - discriminate.
  - intros Hrun Hle. destruct limit' as [|limit']; [lia |].
    assert (n = END \/ n <> END) as [->|Hend]
      by (destruct n; auto; left; reflexivity).
    + exact Hrun.
    + rewrite (run_unfold chat py_str limit _ _ _ Hend) in Hrun.
      rewrite (run_unfold chat py_str limit' _ _ _ Hend).
      destruct (step chat py_str n s w) as [[[n' s1] w1]|]; simpl in *;
        [| discriminate Hrun].
      apply IH; [exact Hrun | lia].
Qed.

(** X13.  An invocation that ends leaves "answer" or "ask_clarification"
    in [next_action]: the action of the last planning step, which the
    answer and the log do not touch. *)
Theorem invoke_final_action (limit : nat) (s s' : AgentState) (w w' : World) :
  invoke chat py_str limit s w = Ok (s', w') ->
  next_action s' = Some "answer" \/ next_action s' = Some "ask_clarification".
Proof.
  intros H. apply run_summary in H; try discriminate. apply H.
Qed.

(** X14.  An invocation that ends adds exactly one line to the episode
    log: the record of the user (or "unknown-user") and of the text of the
    last message of the returned conversation, which is the assistant's
    reply. *)
Theorem invoke_logs_reply (limit : nat) (s s' : AgentState) (w w' : World) :
  invoke chat py_str limit s w = Ok (s', w') ->
  exists reply,
    list.last (get_messages s') = Some (ai_message reply)
    /\ episodes_text w'
       = episodes_text w
           +:+ dumps_record (default "unknown-user" (user_id s)) reply
           +:+ String newline EmptyString.
Proof.
  intros H. apply run_summary in H; try discriminate. apply H.
Qed.

(** X15.  An invocation that ends keeps the user, the policy files and
    the writability of the data directory, and sends at least one prompt to
    the model, the earlier prompts staying in the log of calls. *)
Theorem invoke_frame (limit : nat) (s s' : AgentState) (w w' : World) :
  invoke chat py_str limit s w = Ok (s', w') ->
  user_id s' = user_id s
  /\ policy_files w' = policy_files w
  /\ writable w' = writable w
  /\ model_calls w `prefix_of` model_calls w'
  /\ length (model_calls w) < length (model_calls w').
Proof.
  intros H. apply run_summary in H; try discriminate.
  destruct H as (H1 & H2 & H3 & H4 & H5 & _). auto.
Qed.

End RunProperties.

Section TerminationProperties.

Variable chat : nat -> list Message -> string.
Variable py_str : json -> string.

Lemma run_answer_returns limit s w :
  writable w = true ->
  exists s' w', run chat py_str (S (S (S limit))) N_answer s w = Ok (s', w').
Proof.
  intros Hw. rewrite run_unfold by discriminate. cbn [step answer call_llm].
  cbn [mbind result_bind]. rewrite run_unfold by discriminate.
  cbn [step]. unfold log_episode_node.
  change (get_messages (set_done true (append_message ?m s)))
    with (get_messages s ++ [m]).
  rewrite last_of_snoc by reflexivity. unfold append_episode. simpl.
  rewrite Hw. simpl. eauto.
Qed.

Lemma parse_action_no_tool text :
  contains "action: search_policies" text = false ->
  contains "action: update_profile" text = false ->
  conditional_edge (parse_action text) = Some N_answer.
Proof.
  intros H1 H2. unfold parse_action. rewrite H1, H2.
  destruct (contains "action: ask_clarification" text); [reflexivity |].
  destruct (contains "action: answer" text); reflexivity.
Qed.

Lemma run_planner_model_returns limit s w :
  keyword_router s = false -> never_asks_for_tool chat -> writable w = true ->
  exists s' w',
    run chat py_str (S (S (S (S limit)))) N_planner s w = Ok (s', w').
Proof.
  intros Hr Hchat Hw. rewrite run_unfold by discriminate. cbn [step].
  rewrite (planner_model_based chat s w Hr). cbn [next_action set_next_action].
  destruct (Hchat (length (model_calls w)) (planner_system :: get_messages s))
    as [H1 H2].
  rewrite (parse_action_no_tool _ H1 H2). cbn [mbind result_bind].
  now apply run_answer_returns.
Qed.

Lemma ingest_user_returns s w uid :
  user_id s = Some uid ->
  (user_profile s = None -> is_empty uid = false ->
   exists profile, get_user_profile_tool uid w = Ok profile) ->
  exists s0, ingest_user s w = Ok (s0, w) /\ user_id s0 = Some uid.
Proof.
  intros Hu Hload.
  assert (exists s0, ingest_user s w = Ok (s0, w)) as [s0 H0].
  { unfold ingest_user. rewrite Hu.
    destruct (user_profile s) as [p|]; simpl; [eauto |].
    destruct (is_empty uid) eqn:E; simpl; [eauto |].
    destruct (Hload eq_refl eq_refl) as [profile ->]. simpl. eauto. }
  exists s0. split; [exact H0 |].
  rewrite (ingest_user_user_id _ _ _ _ H0). exact Hu.
Qed.

Lemma run_tools_search_returns s w uid :
  next_action s = Some "search_policies" -> user_id s = Some uid ->
  no_fatal_read (policy_files w) ->
  exists s', run_tools s w = Ok (s', w).
Proof.
  intros Ha Hu Hok. unfold run_tools. rewrite Ha, Hu. simpl.
  destruct (search_policies_returns
              (match last_of HumanMessage (get_messages s) with
               | Some m => content m
               | None => EmptyString
               end) default_top_k w Hok) as [hits ->].
  simpl. eauto.
Qed.

Lemma invoke_seven_steps s w uid :
  user_id s = Some uid ->
  (user_profile s = None -> is_empty uid = false ->
   exists profile, get_user_profile_tool uid w = Ok profile) ->
  no_fatal_read (policy_files w) ->
  writable w = true ->
  never_asks_for_tool chat ->
  exists s' w', invoke chat py_str 7 s w = Ok (s', w').
Proof.
  intros Hu Hload Hfiles Hw Hchat. unfold invoke.
  destruct (ingest_user_returns s w uid Hu Hload) as (s0 & H0 & Hu0).
  rewrite run_unfold by discriminate. cbn [step]. rewrite H0.
  cbn [mbind result_bind].
  destruct (keyword_router s0) eqn:Hr.
  2: { now apply run_planner_model_returns. }
  rewrite run_unfold by discriminate. cbn [step]. unfold planner at 1.
  rewrite Hr. cbn [next_action set_next_action].
  change (conditional_edge "search_policies") with (Some N_run_tools).
  cbn [mbind result_bind].
  rewrite run_unfold by discriminate. cbn [step].
  destruct (run_tools_search_returns (set_next_action "search_policies" s0)
              w uid eq_refl Hu0 Hfiles) as [s2 Hrun].
  rewrite Hrun. cbn [mbind result_bind].
  destruct (run_tools_search_router (set_next_action "search_policies" s0)
              _ _ _ eq_refl Hrun) as (Hr2 & _ & _).
  now apply run_planner_model_returns.
Qed.

(** X17.  A turn ends when the user is known, the store can be read if the
    profile still has to be loaded, no policy file fails to be read with
    anything but OSError (so every file that can be opened is UTF-8), the
    data directory can be written, and the model answers each call and
    never asks for a tool.  The longest such turn visits six nodes (ingest,
    plan, search, plan, answer, log), which the runtime counts as seven
    steps with the end; so every recursion limit from seven on, the
    runtime's default of 25 among them, gives a result and none raises
    GraphRecursionError. *)
Theorem invoke_terminates (limit : nat) (s : AgentState) (w : World)
    (uid : string) :
  user_id s = Some uid ->
  (user_profile s = None -> is_empty uid = false ->
   exists profile, get_user_profile_tool uid w = Ok profile) ->
  no_fatal_read (policy_files w) ->
  writable w = true ->
  never_asks_for_tool chat ->
  7 <= limit ->
  exists s' w', invoke chat py_str limit s w = Ok (s', w').
Proof.
  intros Hu Hload Hfiles Hw Hchat Hlimit.
  destruct (invoke_seven_steps s w uid Hu Hload Hfiles Hw Hchat)
    as (s' & w' & H).
  exists s', w'. exact (run_more_limit chat py_str 7 limit _ _ _ _ H Hlimit).
Qed.

End TerminationProperties.

Section IngestProperties.

Lemma setdefaults_fields s :
  let s1 := setdefault_done
              (setdefault_tool_results (setdefault_retrieved_policies s)) in
  messages s1 = messages s /\ user_id s1 = user_id s
  /\ user_profile s1 = user_profile s
  /\ profile_updated s1 = profile_updated s
  /\ policy_query s1 = policy_query s /\ next_action s1 = next_action s
  /\ retrieved_policies s1 = Some (default [] (retrieved_policies s))
  /\ tool_results s1 = Some (default (JDict ∅) (tool_results s))
  /\ done s1 = Some (default false (done s)).
Proof.
  unfold setdefault_done, setdefault_tool_results,
    setdefault_retrieved_policies.
  destruct (retrieved_policies s) eqn:E1; simpl;
    destruct (tool_results s) eqn:E2; simpl; destruct (done s) eqn:E3; simpl;
    rewrite ?E1, ?E2, ?E3; repeat split.
Qed.

Lemma setdefaults_fixed s :
  is_Some (retrieved_policies s) -> is_Some (tool_results s) ->
  is_Some (done s) ->
  setdefault_done (setdefault_tool_results (setdefault_retrieved_policies s))
  = s.
Proof.
  intros [a Ha] [b Hb] [c Hc].
  unfold setdefault_done, setdefault_tool_results,
    setdefault_retrieved_policies.
  rewrite Ha. rewrite Hb. now rewrite Hc.
Qed.

Lemma ingest_user_inv s w s1 w1 :
  ingest_user s w = Ok (s1, w1) ->
  w1 = w
  /\ exists s0,
       s1 = setdefault_done
              (setdefault_tool_results (setdefault_retrieved_policies s0))
       /\ messages s0 = messages s /\ user_id s0 = user_id s
       /\ policy_query s0 = policy_query s /\ next_action s0 = next_action s
       /\ retrieved_policies s0 = retrieved_policies s
       /\ tool_results s0 = tool_results s /\ done s0 = done s
       /\ ((s0 = s
            /\ (is_Some (user_profile s) \/ user_id s = None
                \/ user_id s = Some EmptyString))
           \/ exists uid profile,
                user_id s = Some uid /\ user_profile s = None
                /\ get_user_profile_tool uid w = Ok profile
                /\ user_profile s0 = Some profile
                /\ profile_updated s0 = Some false).
Proof.
  unfold ingest_user.
  destruct (user_id s) as [uid|] eqn:Hu, (user_profile s) as [p|] eqn:Hp;
    simpl.
  1,3,4: intros [= <- <-]; split; [reflexivity |]; exists s;
    split; [reflexivity |];
    repeat (split; [solve [reflexivity | assumption] |]);
    left; split; [reflexivity |];
    first [left; eexists; reflexivity | right; left; reflexivity].
  destruct uid as [|c uid]; simpl.
  { intros [= <- <-]. split; [reflexivity |]. exists s.
    split; [reflexivity |].
    repeat (split; [solve [reflexivity | assumption] |]).
    left. split; [reflexivity |]. right. right. reflexivity. }
  destruct (get_user_profile_tool (String c uid) w) as [profile|] eqn:E; simpl;
    [| discriminate].
  intros [= <- <-]. split; [reflexivity |].
  eexists. split; [reflexivity |].
  repeat (split; [solve [reflexivity | assumption] |]). right.
  exists (String c uid), profile. repeat split. exact E.
Qed.

(** X18.  Ingest is idempotent and loads the profile once: ingest never
    changes the world, and on the state that an ingest has returned a
    further ingest returns that same state in any world, without reading the
    profiles file. *)
Theorem ingest_user_idempotent (s s1 : AgentState) (w w1 : World) :
  ingest_user s w = Ok (s1, w1) ->
  w1 = w /\ forall w2, ingest_user s1 w2 = Ok (s1, w2).
Proof.
  intros H. apply ingest_user_inv in H as (-> & s0 & -> & H).
  split; [reflexivity |]. intros w2.
  destruct (setdefaults_fields s0)
    as (_ & Hu & Hp & _ & _ & _ & Hr & Ht & Hd).
  unfold ingest_user at 1. rewrite Hu, Hp.
  assert (forall x : AgentState,
            setdefault_done
              (setdefault_tool_results (setdefault_retrieved_policies x)) = x ->
            (Ok x ≫= λ s2 : AgentState,
               Ok (setdefault_done
                     (setdefault_tool_results
                        (setdefault_retrieved_policies s2)), w2))
            = Ok (x, w2)) as Hfix.
  { intros x Hx. simpl. now rewrite Hx. }
  assert (setdefault_done
            (setdefault_tool_results
               (setdefault_retrieved_policies
                  (setdefault_done
                     (setdefault_tool_results
                        (setdefault_retrieved_policies s0)))))
          = setdefault_done
              (setdefault_tool_results (setdefault_retrieved_policies s0)))
    as Hidem.
  { apply setdefaults_fixed; [rewrite Hr | rewrite Ht | rewrite Hd]; eauto. }
  destruct H as (_ & Hu0 & _ & _ & _ & _ & _ & [[-> Hcase]|Hload]).
  - destruct Hcase as [[p Hsome]|[Hnone|Hempty]].
    + rewrite Hsome. destruct (user_id s); now apply Hfix.
    + rewrite Hnone. now apply Hfix.
    + rewrite Hempty. destruct (user_profile s); now apply Hfix.
  - destruct Hload as (uid & profile & Hus & _ & _ & Hp0 & _).
    rewrite Hp0. destruct (user_id s0); now apply Hfix.
Qed.

(** X19.  Ingest only fills what is missing: the messages, the user, the
    recorded query and the action are untouched, and a profile, retrieved
    policies, tool results or [done] that are present keep their value, so
    [done] and the policies of an earlier turn are still there when the next
    turn starts. *)
Theorem ingest_user_fills_missing (s s1 : AgentState) (w w1 : World) :
  ingest_user s w = Ok (s1, w1) ->
  messages s1 = messages s /\ user_id s1 = user_id s
  /\ policy_query s1 = policy_query s /\ next_action s1 = next_action s
  /\ (is_Some (user_profile s) ->
      user_profile s1 = user_profile s
      /\ profile_updated s1 = profile_updated s)
  /\ retrieved_policies s1 = Some (default [] (retrieved_policies s))
  /\ tool_results s1 = Some (default (JDict ∅) (tool_results s))
  /\ done s1 = Some (default false (done s)).
Proof.
  intros H. apply ingest_user_inv in H
    as (-> & s0 & -> & Hm & Hu & Hq & Ha & Hr & Ht & Hd & Hcase).
  destruct (setdefaults_fields s0)
    as (Fm & Fu & Fp & Fpu & Fq & Fa & Fr & Ft & Fd).
  rewrite Fm, Fu, Fq, Fa, Fr, Ft, Fd, Fp, Fpu, Hm, Hu, Hq, Ha, Hr, Ht, Hd.
  repeat split.
  - destruct Hcase as [[-> _]|(uid & profile & _ & Hnone & _)];
      [reflexivity |].
    rewrite Hnone in H. now destruct H.
  - destruct Hcase as [[-> _]|(uid & profile & _ & Hnone & _)];
      [reflexivity |].
    rewrite Hnone in H. now destruct H.
Qed.

End IngestProperties.

Section LimitProperties.

Variable chat : nat -> list Message -> string.
Variable py_str : json -> string.

Lemma ingest_user_keyword_router s w s1 w1 :
  ingest_user s w = Ok (s1, w1) -> keyword_router s1 = keyword_router s.
Proof.
  intros (_ & s0 & -> & Hm & _ & Hq & _)%ingest_user_inv.
  destruct (setdefaults_fields s0) as (Hm' & _ & _ & _ & Hq' & _).
  unfold keyword_router, already_searched, get_messages.
  now rewrite Hm', Hq', Hm, Hq.
Qed.

Lemma step_min_limit n s w n' s1 w1 :
  step chat py_str n s w = Ok (n', s1, w1) ->
  min_limit n <= S (min_limit n').
Proof.
  destruct n.
  - simpl. destruct (ingest_user s w) as [[? ?]|]; simpl; [| discriminate].
    intros [= <- _ _]. simpl. lia.
  - intros (_ & _ & [[-> _]|[-> _]])%step_planner_inv; simpl; lia.
  - simpl. destruct (run_tools s w) as [[? ?]|]; simpl; [| discriminate].
    intros [= <- _ _]. simpl. lia.
  - simpl. destruct (answer chat py_str s w). intros [= <- _ _]. simpl. lia.
  - simpl. destruct (log_episode_node s w) as [[? ?]|]; simpl;
      [| discriminate].
    intros [= <- _ _]. simpl. lia.
  - simpl. lia.
Qed.

Lemma run_min_limit limit n s w r :
  run chat py_str limit n s w = Ok r -> min_limit n <= limit.
Proof.
  revert n s w. induction limit as [|limit IH]; intros n s w;
    [discriminate |].
  assert (n = END \/ n <> END) as [->|Hend]
    by (destruct n; auto; left; reflexivity).
  - simpl. lia.
  - rewrite (run_unfold chat py_str limit _ _ _ Hend).
    destruct (step chat py_str n s w) as [[[n' s1] w1]|] eqn:Hstep;
      simpl; [| discriminate].
    intros Hrun. apply IH in Hrun. apply step_min_limit in Hstep. lia.
Qed.

Lemma run_router_limit limit s w r :
  keyword_router s = true ->
  run chat py_str limit N_ingest_user s w = Ok r -> 7 <= limit.
Proof.
  intros Hr Hrun. pose proof (run_min_limit _ _ _ _ _ Hrun) as H5.
  simpl in H5. destruct limit as [|[|[|limit]]]; try lia.
  clear H5. revert Hrun. rewrite run_unfold by discriminate.
  destruct (step chat py_str N_ingest_user s w) as [[[n1 s1] w1]|] eqn:H1;
      cbn [mbind result_bind]; [| discriminate].
    assert (n1 = N_planner /\ keyword_router s1 = true) as [-> Hr1].
    { simpl in H1.
      destruct (ingest_user s w) as [[s0 w0]|] eqn:E; simpl in H1;
        [| discriminate].
      injection H1 as <- <- _. split; [reflexivity |].
      now rewrite (ingest_user_keyword_router _ _ _ _ E). }
    rewrite run_unfold by discriminate. cbn [step]. unfold planner at 1.
    rewrite Hr1. cbn [next_action set_next_action].
    change (conditional_edge "search_policies") with (Some N_run_tools).
    cbn [mbind result_bind]. rewrite run_unfold by discriminate.
    destruct (step chat py_str N_run_tools _ w1) as [[[n3 s3] w3]|] eqn:H3;
      cbn [mbind result_bind]; [| discriminate].
    assert (n3 = N_planner) as ->.
    { simpl in H3.
      destruct (run_tools _ w1) as [[? ?]|]; simpl in H3; [| discriminate].
      now injection H3 as <- _ _. }
    intros Hrun. apply run_min_limit in Hrun. simpl in Hrun. lia.
Qed.

(** X16.  The recursion limit that a turn needs: no invocation ends with
    a limit under five (ingest, plan, answer, log and the end), and none
    ends with a limit under seven when the keyword router fires on the
    state it is given, since the graph then goes through the search and
    back to the planner.  With a smaller limit the invocation raises. *)
Theorem invoke_minimum_limit (limit : nat) (s : AgentState) (w : World)
    (r : AgentState * World) :
  invoke chat py_str limit s w = Ok r ->
  5 <= limit /\ (keyword_router s = true -> 7 <= limit).
Proof.
  unfold invoke. intros H. split.
  - exact (run_min_limit _ _ _ _ _ H).
  - intros Hr. exact (run_router_limit _ _ _ _ Hr H).
Qed.

End LimitProperties.

Section AnswerProperties.

Variable py_str : json -> string.

Lemma startswith_refl p rest : startswith p (p +:+ rest) = true.
Proof.
  induction p as [|c r IH]; [reflexivity |].
  rewrite append_cons. simpl. now rewrite Ascii.eqb_refl.
Qed.

Lemma startswith_append p a b :
  startswith p a = true -> startswith p (a +:+ b) = true.
Proof.
  revert a. induction p as [|c r IH]; intros a; [reflexivity |].
  destruct a as [|d a']; [discriminate |].
  rewrite append_cons. simpl. intros [H1 H2]%andb_true_iff.
  now rewrite H1, (IH _ H2).
Qed.

Lemma contains_append_l p a b :
  contains p a = true -> contains p (a +:+ b) = true.
Proof.
  induction a as [|d a' IH].
  - simpl. rewrite orb_false_r. intros H. destruct p; [| discriminate].
    apply contains_empty.
  - rewrite append_cons. cbn [contains].
    intros [H|H]%orb_true_iff; apply orb_true_iff.
    + left. now apply (startswith_append p (String d a') b).
    + right. now apply IH.
Qed.

Lemma contains_append_r p a b :
  contains p b = true -> contains p (a +:+ b) = true.
Proof.
  intros H. induction a as [|d a' IH]; [exact H |].
  rewrite append_cons. cbn [contains]. rewrite IH. apply orb_true_r.
Qed.

Lemma contains_startswith p s : startswith p s = true -> contains p s = true.
Proof. intros H. destruct s; cbn [contains]; now rewrite H. Qed.

Lemma policy_blocks_contain p docs acc doc :
  contains p acc = true
  \/ (In doc docs
      /\ (p = page_content doc \/ p = source doc)) ->
  contains p
    (fold_left
       (fun acc doc =>
          acc +:+ nl +:+ "[POLICY from " +:+ source doc +:+ "]" +:+ nl
              +:+ page_content doc +:+ nl)
       docs acc) = true.
Proof.
  revert acc. induction docs as [|d rest IH]; intros acc; simpl.
  - intros [H|[[] _]]. exact H.
  - intros [H|[[<-|Hin] Hp]]; apply IH.
    + left. now apply contains_append_l.
    + left. destruct Hp as [-> | ->].
      * do 6 apply contains_append_r.
        apply contains_startswith, startswith_refl.
      * do 3 apply contains_append_r.
        apply contains_startswith, startswith_refl.
    + right. auto.
Qed.

(** X20.  The context message that the answer node sends to the model
    carries the full text and the source path of every retrieved document,
    and the printed user profile. *)
Theorem answer_context_carries_policies (s : AgentState) (doc : Document) :
  (In doc (default [] (retrieved_policies s)) ->
   contains (page_content doc) (content (answer_context py_str s)) = true
   /\ contains (source doc) (content (answer_context py_str s)) = true)
  /\ contains (py_str (default (JDict ∅) (user_profile s)))
       (content (answer_context py_str s)) = true.
Proof.
  unfold answer_context. cbn [content]. split.
  - intros Hin. split; do 4 apply contains_append_r;
      apply (policy_blocks_contain _ _ _ doc); right; auto.
  - do 2 apply contains_append_r. apply contains_append_l.
    do 2 apply contains_append_r.
    apply contains_startswith, startswith_refl.
Qed.

End AnswerProperties.

Section ExtractProperties.

Lemma all_chars_filter keep s : all_chars keep (filter_chars keep s) = true.
Proof.
  induction s as [|c r IH]; [reflexivity |].
  simpl. destruct (keep c) eqn:E; [| exact IH]. simpl. now rewrite E.
Qed.

Lemma all_chars_weaken (p q : ascii -> bool) s :
  (forall c, p c = true -> q c = true) ->
  all_chars p s = true -> all_chars q s = true.
Proof.
  intros Hpq. induction s as [|c r IH]; [reflexivity |].
  simpl. intros [H1 H2]%andb_true_iff. now rewrite (Hpq _ H1), (IH H2).
Qed.

(** The words of a text are not empty and are made of the characters of
    the text that are not white space. *)
Lemma split_aux_words q s :
  all_chars q s = true ->
  all_chars (fun c => negb (is_space c) && q c) (fst (split_aux s)) = true
  /\ Forall (fun w => is_empty w = false
                      /\ all_chars (fun c => negb (is_space c) && q c) w = true)
            (snd (split_aux s)).
Proof.
  induction s as [|c r IH]; [now split |].
  simpl. intros [Hc Hr]%andb_true_iff. destruct (IH Hr) as [H1 H2].
  destruct (split_aux r) as [w ws]. simpl in *.
  destruct (is_space c) eqn:E; simpl.
  - split; [reflexivity |]. unfold push. destruct w; [exact H2 |].
    constructor; [split; [reflexivity | exact H1] | exact H2].
  - rewrite E, Hc, H1. simpl. now split.
Qed.

Lemma split_words q s :
  all_chars q s = true ->
  Forall (fun w => is_empty w = false
                   /\ all_chars (fun c => negb (is_space c) && q c) w = true)
         (split s).
Proof.
  intros H. destruct (split_aux_words q s H) as [H1 H2].
  unfold split. destruct (split_aux s) as [w ws]. simpl in *.
  unfold push. destruct w; [exact H2 |].
  constructor; [split; [reflexivity | exact H1] | exact H2].
Qed.

(** X21.  The toy rule records at most the one fact "favorite_color", and
    its value is a string that is not empty and has neither white space nor
    a dot. *)
Theorem extract_fields_value (last_human : option Message) (k : string)
    (v : json) :
  extract_fields last_human !! k = Some v ->
  k = "favorite_color"
  /\ exists word,
       v = JString word /\ is_empty word = false
       /\ any_char is_space word = false
       /\ char_in "." word = false.
Proof.
  unfold extract_fields. destruct last_human as [m|]; [| now rewrite lookup_empty].
  destruct (contains "favorite color" _); [| now rewrite lookup_empty].
  destruct (last_word _) as [word|] eqn:E; [| now rewrite lookup_empty].
  intros [<- <-]%lookup_singleton_Some. split; [reflexivity |].
  exists word. split; [reflexivity |].
  assert (In word (split (remove_dots (strip (content m))))) as Hin.
  { unfold last_word in E. apply last_Some in E as [l ->].
    apply in_or_app. right. now left. }
  pose proof (split_words _ _ (all_chars_filter
                                 (fun c => negb (Ascii.eqb c "."))
                                 (strip (content m)))) as Hall.
  rewrite List.Forall_forall in Hall. destruct (Hall _ Hin) as [H1 H2].
  split; [exact H1 |]. clear - H2.
  induction word as [|c r IH]; [now split |].
  cbn [all_chars any_char char_in] in *.
  apply andb_true_iff in H2 as [Hc Hr].
  apply andb_true_iff in Hc as [Hs Hd]. destruct (IH Hr) as [-> ->].
  apply negb_true_iff in Hs, Hd.
  rewrite Hs, (Ascii.eqb_sym "." c), Hd. now split.
Qed.

End ExtractProperties.

Section EpisodeProperties.

Lemma escape_char_printable c : all_chars printable (escape_char c) = true.
Proof. each_char c; reflexivity. Qed.

Lemma all_chars_append p a b :
  all_chars p (a +:+ b) = all_chars p a && all_chars p b.
Proof.
  induction a as [|c r IH]; [reflexivity |].
  rewrite append_cons. simpl. now rewrite IH, andb_assoc.
Qed.

Lemma escape_printable s : all_chars printable (escape s) = true.
Proof.
  induction s as [|c r IH]; [reflexivity |].
  simpl. now rewrite all_chars_append, escape_char_printable, IH.
Qed.

Lemma dumps_string_printable s : all_chars printable (dumps_string s) = true.
Proof.
  unfold dumps_string. simpl. now rewrite all_chars_append, escape_printable.
Qed.

(** X22.  Whatever the user id and the reply hold, the line that
    [append_episode] writes is made of the characters from space to tilde
    only, and the log after the append ends with a newline. *)
Theorem append_episode_line_printable (user_id summary : string)
    (w w' : World) :
  append_episode user_id summary w = Ok w' ->
  all_chars printable (dumps_record user_id summary) = true
  /\ episodes_text w'
     = episodes_text w +:+ dumps_record user_id summary
         +:+ String newline EmptyString
  /\ profile_file w' = profile_file w.
Proof.
  unfold append_episode. destruct (writable w); [| discriminate].
  intros [= <-]. split; [| split; reflexivity].
  unfold dumps_record.
  repeat (rewrite all_chars_append || rewrite dumps_string_printable).
  reflexivity.
Qed.

End EpisodeProperties.

Section DriverProperties.

Variable chat : nat -> list Message -> string.
Variable py_str : json -> string.
Variable limit : nat.

Lemma main_loop_turns inputs s w :
  main_loop chat py_str limit inputs s w
  = turns chat py_str limit (effective_inputs inputs) s w.
Proof.
  revert s w. induction inputs as [|raw rest IH]; intros s w; [reflexivity |].
  cbn [main_loop effective_inputs].
  destruct (is_exit_word (lower (strip raw))); [reflexivity |].
  destruct (is_empty (strip raw)); [apply IH |].
  cbn [turns]. destruct (turn chat py_str limit (strip raw) s w) as [[s1 w1]|];
    [apply IH | reflexivity].
Qed.

Lemma effective_inputs_exit before word after :
  is_exit_word (lower (strip word)) = true ->
  effective_inputs (before ++ word :: after) = effective_inputs before.
Proof.
  intros Hw. induction before as [|raw rest IH]; simpl.
  - now rewrite Hw.
  - destruct (is_exit_word (lower (strip raw))); [reflexivity |].
    destruct (is_empty (strip raw)); now rewrite IH.
Qed.

Lemma effective_inputs_blank before blank after :
  is_empty (strip blank) = true ->
  effective_inputs (before ++ blank :: after)
  = effective_inputs (before ++ after).
Proof.
  intros Hb. induction before as [|raw rest IH]; simpl.
  - rewrite Hb. apply is_empty_true in Hb. now rewrite Hb.
  - destruct (is_exit_word (lower (strip raw))); [reflexivity |].
    destruct (is_empty (strip raw)); now rewrite IH.
Qed.

(** X23.  The session depends on the typed lines only through the lines
    that reach the graph: nothing typed after "exit", "quit" or "q" (in any
    case, with any white space around) has an effect, a blank line has none,
    and every other line is handled as its stripped text. *)
Theorem main_loop_effective_inputs (inputs : list string) (s : AgentState)
    (w : World) :
  main_loop chat py_str limit inputs s w
  = turns chat py_str limit (effective_inputs inputs) s w
  /\ (forall before word after,
        inputs = before ++ word :: after ->
        is_exit_word (lower (strip word)) = true ->
        main_loop chat py_str limit inputs s w
        = main_loop chat py_str limit before s w)
  /\ (forall before blank after,
        inputs = before ++ blank :: after ->
        is_empty (strip blank) = true ->
        main_loop chat py_str limit inputs s w
        = main_loop chat py_str limit (before ++ after) s w).
Proof.
  split; [apply main_loop_turns |]. split.
  - intros before word after -> Hw.
    now rewrite !main_loop_turns, effective_inputs_exit.
  - intros before blank after -> Hb.
    now rewrite !main_loop_turns, effective_inputs_blank.
Qed.

Lemma turn_answered user_input s s' w w' :
  turn chat py_str limit user_input s w = Ok (s', w') ->
  exists s_a w_a planning,
    get_messages s_a = get_messages s ++ human_message user_input :: planning
    /\ planning_replies chat (length (model_calls w))
         (get_messages s ++ [human_message user_input]) planning
    /\ model_calls w_a
       = model_calls w
           ++ planner_prompts (get_messages s ++ [human_message user_input])
                planning
    /\ s' = set_done true
              (append_message
                 (ai_message
                    (chat (length (model_calls w_a))
                       (answer_system :: answer_context py_str s_a
                          :: get_messages s_a))) s_a)
    /\ model_calls w'
       = model_calls w_a
           ++ [answer_system :: answer_context py_str s_a :: get_messages s_a]
    /\ episodes_text w'
       = episodes_text w
           +:+ dumps_record (default "unknown-user" (user_id s))
                 (chat (length (model_calls w_a))
                    (answer_system :: answer_context py_str s_a
                       :: get_messages s_a))
           +:+ String newline EmptyString.
Proof.
  unfold turn, invoke. intros H.
  assert (N_ingest_user <> N_log_episode) as Hlog by discriminate.
  assert (N_ingest_user <> END) as Hend by discriminate.
  destruct (run_answered chat py_str _ _ _ _ _ _ H Hlog Hend)
    as (s_a & w_a & planning & Hm & Hp & Hw & Hs & Hc).
  rewrite get_messages_append in Hm, Hp, Hw.
  exists s_a, w_a, planning.
  split; [now rewrite Hm, <- app_assoc |].
  do 4 (split; [assumption |]).
  apply run_summary in H; try discriminate.
  destruct H as (_ & _ & _ & _ & _ & _ & reply & Hlast & Hlog').
  rewrite Hs in Hlast.
  change (get_messages (set_done true (append_message ?m s_a)))
    with (get_messages s_a ++ [m]) in Hlast.
  rewrite last_snoc in Hlast. injection Hlast as <-. exact Hlog'.
Qed.

(** X24.  A turn of the driver that returns has reached the answer node
    in a state [s_a] whose conversation is the one before the turn, followed
    by the user's message and by the replies of the planning steps that
    asked the model (each the model's reply to the planner's prompt over the
    conversation so far).  The returned state is [s_a] with one more
    message, which the driver prints: the model's reply to the answer
    prompt made of [answer_system], the context of [s_a] and the messages of
    [s_a], the last prompt sent; and that reply is the summary written to
    the episode log. *)
Theorem turn_ends_with_reply (user_input : string) (s s' : AgentState)
    (w w' : World) :
  turn chat py_str limit user_input s w = Ok (s', w') ->
  exists s_a w_a planning,
    get_messages s_a = get_messages s ++ human_message user_input :: planning
    /\ planning_replies chat (length (model_calls w))
         (get_messages s ++ [human_message user_input]) planning
    /\ model_calls w_a
       = model_calls w
           ++ planner_prompts (get_messages s ++ [human_message user_input])
                planning
    /\ s' = set_done true
              (append_message
                 (ai_message
                    (chat (length (model_calls w_a))
                       (answer_system :: answer_context py_str s_a
                          :: get_messages s_a))) s_a)
    /\ model_calls w'
       = model_calls w_a
           ++ [answer_system :: answer_context py_str s_a :: get_messages s_a]
    /\ episodes_text w'
       = episodes_text w
           +:+ dumps_record (default "unknown-user" (user_id s))
                 (chat (length (model_calls w_a))
                    (answer_system :: answer_context py_str s_a
                       :: get_messages s_a))
           +:+ String newline EmptyString.
Proof. apply turn_answered. Qed.

End DriverProperties.

(* ===================================================================== *)
(** * The further properties at concrete inputs                           *)
(* ===================================================================== *)

(** A profiles file with two users. *)
Lemma save_keeps_other_users_witness :
  load_user_profile "u2"
    (set_profile_file
       (Holds (JDict (<[ "u1" := JString "new" ]>
                        {[ "u1" := JString "old"; "u2" := JString "kept" ]})))
       (world_with_profiles
          (Holds (JDict {[ "u1" := JString "old"; "u2" := JString "kept" ]}))))
  = Ok (JString "kept").
Proof.
  rewrite (save_keeps_other_users "u1" "u2" (JString "new")
             (world_with_profiles
                (Holds (JDict {[ "u1" := JString "old";
                                 "u2" := JString "kept" ]}))));
    [reflexivity | reflexivity | discriminate].
Defined.


(** The update tool returns in the empty world. *)
Lemma update_tool_returns_iff_witness :
  exists merged w',
    update_user_profile_tool "u1" {[ "favorite_color" := JString "blue" ]}
      empty_world = Ok (merged, w').
Proof.
  apply (proj2 (update_tool_returns_iff "u1"
                  {[ "favorite_color" := JString "blue" ]} empty_world)).
  split; [reflexivity |]. exists ∅. reflexivity.
Defined.

Lemma update_tool_frame_witness :
  exists merged w',
    update_user_profile_tool "u1" {[ "favorite_color" := JString "blue" ]}
      refund_world = Ok (merged, w')
    /\ policy_files w' = policy_files refund_world.
Proof.
  destruct (update_user_profile_tool "u1"
              {[ "favorite_color" := JString "blue" ]} refund_world)
    as [[merged w']|e] eqn:E.
  - exists merged, w'. split; [reflexivity |].
    exact (proj1 (proj2 (update_tool_frame _ _ _ _ _ E))).
  - vm_compute in E. discriminate E.
Defined.

(** Two updates of the same fact: the later value stays. *)
Lemma update_tool_compose_witness :
  exists merged1 w1 merged2 w2,
    update_user_profile_tool "u1" {[ "favorite_color" := JString "blue" ]}
      empty_world = Ok (merged1, w1)
    /\ update_user_profile_tool "u1" {[ "favorite_color" := JString "red" ]}
         w1 = Ok (merged2, w2)
    /\ update_user_profile_tool "u1"
         ({[ "favorite_color" := JString "red" ]}
            ∪ {[ "favorite_color" := JString "blue" ]})
         empty_world = Ok (merged2, w2).
Proof.
  destruct (update_user_profile_tool "u1"
              {[ "favorite_color" := JString "blue" ]} empty_world)
    as [[merged1 w1]|e] eqn:E1; [| vm_compute in E1; discriminate E1].
  destruct (update_user_profile_tool "u1"
              {[ "favorite_color" := JString "red" ]} w1)
    as [[merged2 w2]|e] eqn:E2.
  - exists merged1, w1, merged2, w2. split; [reflexivity |].
    split; [exact E2 |].
    exact (proj1 (update_tool_compose _ _ _ _ _ _ _ _ E1 E2)).
  - vm_compute in E1. injection E1 as <- <-. vm_compute in E2. discriminate E2.
Defined.

(** After the search for "What is the refund policy?" the router
    declines. *)
Lemma search_disarms_router_witness :
  exists s' w',
    run_tools
      (state_with_action "What is the refund policy?" "search_policies")
      refund_world = Ok (s', w')
    /\ keyword_router s' = false.
Proof.
  destruct (run_tools
              (state_with_action "What is the refund policy?"
                                 "search_policies") refund_world)
    as [[s' w']|e] eqn:E.
  - exists s', w'. split; [reflexivity |].
    exact (proj1 (search_disarms_router scripted_chat
                    (state_with_action "What is the refund policy?"
                                       "search_policies")
                    _ _ _ eq_refl E)).
  - vm_compute in E. discriminate E.
Defined.

Lemma invoke_final_action_witness :
  exists s' w',
    invoke scripted_chat plain_str 25
      (state_after_input "What is the refund policy?") refund_world
    = Ok (s', w')
    /\ (next_action s' = Some "answer"
        \/ next_action s' = Some "ask_clarification").
Proof.
  destruct (invoke scripted_chat plain_str 25
              (state_after_input "What is the refund policy?") refund_world)
    as [[s' w']|e] eqn:E.
  - exists s', w'. split; [reflexivity |].
    exact (invoke_final_action scripted_chat plain_str 25 _ _ _ _ E).
  - vm_compute in E. discriminate E.
Defined.

Lemma invoke_logs_reply_witness :
  exists s' w' reply,
    invoke scripted_chat plain_str 25
      (state_after_input "What is the refund policy?") refund_world
    = Ok (s', w')
    /\ list.last (get_messages s') = Some (ai_message reply)
    /\ episodes_text w'
       = dumps_record demo_user reply +:+ String newline EmptyString.
Proof.
  destruct (invoke scripted_chat plain_str 25
              (state_after_input "What is the refund policy?") refund_world)
    as [[s' w']|e] eqn:E.
  - destruct (invoke_logs_reply scripted_chat plain_str 25 _ _ _ _ E)
      as (reply & H1 & H2).
    exists s', w', reply. split; [reflexivity |]. split; [exact H1 | exact H2].
  - vm_compute in E. discriminate E.
Defined.

Lemma invoke_frame_witness :
  exists s' w',
    invoke scripted_chat plain_str 25
      (state_after_input "What is the refund policy?") refund_world
    = Ok (s', w')
    /\ user_id s' = Some demo_user
    /\ policy_files w' = policy_files refund_world.
Proof.
  destruct (invoke scripted_chat plain_str 25
              (state_after_input "What is the refund policy?") refund_world)
    as [[s' w']|e] eqn:E.
  - destruct (invoke_frame scripted_chat plain_str 25 _ _ _ _ E)
      as (H1 & H2 & _).
    exists s', w'. split; [reflexivity |]. split; [exact H1 | exact H2].
  - vm_compute in E. discriminate E.
Defined.

(** The turn about refunds goes through the search: it ends with a limit
    of seven and runs out of steps with six. *)
Lemma invoke_minimum_limit_witness :
  exists r,
    invoke scripted_chat plain_str 7
      (state_after_input "What is the refund policy?") refund_world = Ok r
    /\ 7 <= 7.
Proof.
  destruct (invoke scripted_chat plain_str 7
              (state_after_input "What is the refund policy?") refund_world)
    as [r|e] eqn:E.
  - exists r. split; [reflexivity |].
    apply (proj2 (invoke_minimum_limit scripted_chat plain_str 7 _ _ r E)).
    reflexivity.
  - vm_compute in E. discriminate E.
Defined.

Lemma refund_turn_limit_six :
  invoke scripted_chat plain_str 6
    (state_after_input "What is the refund policy?") refund_world
  = Raise GraphRecursionError.
Proof. vm_compute. reflexivity. Qed.

Lemma scripted_chat_never_asks : never_asks_for_tool scripted_chat.
Proof. intros [|n] prompt; split; reflexivity. Defined.

Lemma invoke_terminates_witness :
  exists s' w',
    invoke scripted_chat plain_str 7
      (state_after_input "What is the refund policy?") refund_world
    = Ok (s', w').
Proof.
  apply (invoke_terminates scripted_chat plain_str 7
           (state_after_input "What is the refund policy?") refund_world
           demo_user eq_refl).
  - intros _ _. eexists. reflexivity.
  - intros path e [H|[]]. discriminate H.
  - reflexivity.
  - exact scripted_chat_never_asks.
  - lia.
Defined.

Lemma ingest_user_idempotent_witness :
  exists s1,
    ingest_user (state_after_input "Hello") empty_world = Ok (s1, empty_world)
    /\ ingest_user s1 (world_with_profiles Unreadable)
       = Ok (s1, world_with_profiles Unreadable).
Proof.
  destruct (ingest_user (state_after_input "Hello") empty_world)
    as [[s1 w1]|e] eqn:E.
  - destruct (ingest_user_idempotent _ _ _ _ E) as [-> H].
    exists s1. split; [reflexivity | apply H].
  - vm_compute in E. discriminate E.
Defined.

Lemma ingest_user_fills_missing_witness :
  exists s1 w1,
    ingest_user (set_done true (state_after_input "Hello")) empty_world
    = Ok (s1, w1)
    /\ done s1 = Some true.
Proof.
  destruct (ingest_user (set_done true (state_after_input "Hello")) empty_world)
    as [[s1 w1]|e] eqn:E.
  - exists s1, w1. split; [reflexivity |].
    destruct (ingest_user_fills_missing _ _ _ _ E)
      as (_ & _ & _ & _ & _ & _ & _ & H).
    exact H.
  - vm_compute in E. discriminate E.
Defined.

Lemma answer_context_carries_policies_witness :
  contains "Refunds take 30 days."
    (content
       (answer_context plain_str
          (set_retrieved_policies
             [make_document "policies/refund.txt" "Refunds take 30 days."]
             (state_after_input "Refunds?")))) = true.
Proof.
  apply (proj1 (answer_context_carries_policies plain_str
                  (set_retrieved_policies
                     [make_document "policies/refund.txt"
                        "Refunds take 30 days."]
                     (state_after_input "Refunds?"))
                  (make_document "policies/refund.txt"
                     "Refunds take 30 days."))).
  left. reflexivity.
Defined.

Lemma extract_fields_value_witness :
  exists word,
    JString "teal" = JString word /\ is_empty word = false
    /\ any_char is_space word = false /\ char_in "." word = false.
Proof.
  apply (extract_fields_value
           (Some (human_message " My favorite color is ... teal. "))
           "favorite_color" (JString "teal")).
  reflexivity.
Defined.

Lemma append_episode_line_printable_witness :
  all_chars printable
    (dumps_record "u1" (String newline (String "233" "t"))) = true.
Proof.
  apply (append_episode_line_printable "u1"
           (String newline (String "233" "t")) empty_world
           (set_episodes_file
              (dumps_record "u1" (String newline (String "233" "t"))
                 +:+ String newline EmptyString) empty_world)).
  reflexivity.
Defined.

Lemma main_loop_effective_inputs_witness :
  main_loop scripted_chat plain_str 25
    ["What is the refund policy?"; " QUIT "; "never read"]
    initial_state refund_world
  = main_loop scripted_chat plain_str 25 ["What is the refund policy?"]
      initial_state refund_world.
Proof.
  apply (proj1 (proj2 (main_loop_effective_inputs scripted_chat plain_str 25
                         ["What is the refund policy?"; " QUIT "; "never read"]
                         initial_state refund_world))
           ["What is the refund policy?"] " QUIT " ["never read"]);
    reflexivity.
Defined.

Lemma turn_ends_with_reply_witness :
  exists s' w' s_a w_a planning,
    turn scripted_chat plain_str 25 "What is the refund policy?"
      initial_state refund_world = Ok (s', w')
    /\ get_messages s_a
       = get_messages initial_state
           ++ human_message "What is the refund policy?" :: planning
    /\ s' = set_done true
              (append_message
                 (ai_message
                    (scripted_chat (length (model_calls w_a))
                       (answer_system :: answer_context plain_str s_a
                          :: get_messages s_a))) s_a).
Proof.
  destruct (turn scripted_chat plain_str 25 "What is the refund policy?"
              initial_state refund_world) as [[s' w']|e] eqn:E.
  - destruct (turn_ends_with_reply scripted_chat plain_str 25 _ _ _ _ _ E)
      as (s_a & w_a & planning & H1 & _ & _ & H2 & _).
    exists s', w', s_a, w_a, planning.
    split; [reflexivity |]. split; [exact H1 | exact H2].
  - vm_compute in E. discriminate E.
Defined.

(* ===================================================================== *)
(** * The loop between the planner and the tools                          *)
(* ===================================================================== *)

Section LoopProperties.

Variable chat : nat -> list Message -> string.
Variable py_str : json -> string.
Hypothesis chat_asks : always_asks_for_tool chat.

Lemma parse_action_tool text :
  contains "action: search_policies" text = true
  \/ contains "action: update_profile" text = true ->
  conditional_edge (parse_action text) = Some N_run_tools.
Proof.
  unfold parse_action. intros [H|H].
  - now rewrite H.
  - rewrite H. now destruct (contains "action: search_policies" text).
Qed.

Lemma step_planner_to_tools s w n' s1 w1 :
  step chat py_str N_planner s w = Ok (n', s1, w1) -> n' = N_run_tools.
Proof.
  cbn [step]. destruct (keyword_router s) eqn:Hr.
  - unfold planner. rewrite Hr. cbn [next_action set_next_action].
    change (conditional_edge "search_policies") with (Some N_run_tools).
    now intros [= <- _ _].
  - rewrite (planner_model_based chat s w Hr).
    cbn [next_action set_next_action].
    rewrite (parse_action_tool _ (chat_asks _ _)). now intros [= <- _ _].
Qed.

Lemma run_loops limit n s w r :
  n = N_planner \/ n = N_run_tools ->
  run chat py_str limit n s w <> Ok r.
Proof.
  revert n s w. induction limit as [|limit IH]; intros n s w Hn.
  - destruct Hn as [-> | ->]; discriminate.
  - assert (n <> END) as Hend by (destruct Hn as [-> | ->]; discriminate).
    rewrite (run_unfold chat py_str limit n s w Hend).
    destruct (step chat py_str n s w) as [[[n' s1] w1]|] eqn:Hstep;
      [| discriminate].
    cbn [mbind result_bind]. apply IH. destruct Hn as [-> | ->].
    + right. eapply step_planner_to_tools, Hstep.
    + left. simpl in Hstep.
      destruct (run_tools s w) as [[? ?]|]; simpl in Hstep; [| discriminate].
      now injection Hstep as <- _ _.
Qed.

(** X25.  There is no guard on the loop between the planner and the
    tools: with a model that asks for a tool in every reply, no invocation
    ends, whatever the state, the world and the recursion limit. *)
Theorem invoke_never_ends (limit : nat) (s : AgentState) (w : World)
    (r : AgentState * World) :
  invoke chat py_str limit s w <> Ok r.
Proof.
  unfold invoke. destruct limit as [|limit]; [discriminate |].
  rewrite run_unfold by discriminate. cbn [step].
  destruct (ingest_user s w) as [[s0 w0]|]; [| discriminate].
  cbn [mbind result_bind]. apply run_loops. now left.
Qed.

End LoopProperties.

Lemma invoke_never_ends_witness :
  invoke (fun _ _ => "I will do Action: update_profile") plain_str 25
    (state_after_input "My favorite color is blue.") empty_world
  <> Ok (state_after_input "My favorite color is blue.", empty_world).
Proof.
  apply invoke_never_ends. intros n prompt. right. reflexivity.
Defined.
